(** * lora.c: SPI register access to the SX1278 and the bring-up sequence

    A shallow embedding of [lora.c] (UCSD CubeSat).  The program talks to an
    SX1278 LoRa transceiver through the bcm2835 library: every register
    access is one full-duplex transfer of two bytes.  The peripheral is kept
    abstract (a type class), the calls into the bcm2835 library and to
    [printf] are recorded in a trace, and the C functions [read_reg],
    [write_reg], [diagnose] and [main] are state-passing functions over that
    world. *)

From Stdlib Require Import ZArith Lia.
From stdpp Require Import base option list strings gmap.

Local Open Scope Z_scope.

(** ** Bytes *)

(** A [char] / [uint8_t] is represented by its bit pattern, a [Z] in
    [0, 256).  Storing a wider integer into a [char] keeps the low 8 bits. *)
Definition to_char (z : Z) : Z := z mod 256.

Definition is_byte (z : Z) : Prop := 0 <= z < 256.

(** ** Constants of the source ([#define]s) *)

(* SX1278 device modes *)
Definition FSK_SLEEP      : Z := 0x08.
Definition FSK_CAD        : Z := 0x0F.
Definition LORA_SLEEP     : Z := 0x88.
Definition LORA_STANDBY   : Z := 0x89.
Definition LORA_TX        : Z := 0x8B.
Definition LORA_RX_CONT   : Z := 0x8D.
Definition LORA_RX_SINGLE : Z := 0x8E.
Definition LORA_CAD       : Z := 0x8F.

(* register addresses *)
Definition REG_FIFO                 : Z := 0x00.
Definition REG_OP_MODE              : Z := 0x01.
Definition REG_RF_FREQ_MSB_MSB      : Z := 0x06.
Definition REG_RF_FREQ_MSB          : Z := 0x07.
Definition REG_RF_FREQ_LSB          : Z := 0x08.
Definition REG_PA_CONFIG            : Z := 0x09.
Definition REG_PA_RAMP              : Z := 0x0A.
Definition REG_OCP                  : Z := 0x0B.
Definition REG_LNA                  : Z := 0x0C.
Definition REG_FIFO_ADDR_PTR        : Z := 0x0D.
Definition REG_FIFO_TX_BASE_ADDR    : Z := 0x0E.
Definition REG_FIFO_RX_BASE_ADDR    : Z := 0x0F.
Definition REG_FIFO_RX_CURRENT_ADDR : Z := 0x10.
Definition REG_IRQ_FLAGS_MASK       : Z := 0x11.
Definition REG_IRQ_FLAGS            : Z := 0x12.
Definition REG_RX_NUM_BYTES         : Z := 0x13.
Definition REG_RX_PACKET_COUNT_MSB  : Z := 0x16.
Definition REG_RX_PACKET_COUNT_LSB  : Z := 0x17.
Definition REG_MODEM_STAT           : Z := 0x18.
Definition REG_PACKET_SNR           : Z := 0x19.
Definition REG_PACKET_RSSI          : Z := 0x1A.
Definition REG_CURRENT_RSSI         : Z := 0x1B.
Definition REG_HOP_CHANNEL          : Z := 0x1C.
Definition REG_MODEM_CONFIG1        : Z := 0x1D.
Definition REG_MODEM_CONFIG2        : Z := 0x1E.
Definition REG_PREAMBLE_LEN_MSB     : Z := 0x20.
Definition REG_PREAMBLE_LEN_LSB     : Z := 0x21.
Definition REG_PAYLOAD_LEN          : Z := 0x22.
Definition REG_MAX_PAYLOAD_LEN      : Z := 0x23.
Definition REG_HOP_PERIOD           : Z := 0x24.
Definition REG_MODEM_CONFIG3        : Z := 0x26.
Definition REG_DETECT_OPTIMIZE      : Z := 0x31.
Definition REG_DETECT_THRESH        : Z := 0x37.
Definition REG_SYNC_WORD            : Z := 0x39.

(* helpful values *)
Definition FIFO_TX_BASE_ADDR : Z := 0x80.

(** The register map, in the order of the [#define]s. *)
Definition defined_registers : list Z :=
  [ REG_FIFO; REG_OP_MODE; REG_RF_FREQ_MSB_MSB; REG_RF_FREQ_MSB;
    REG_RF_FREQ_LSB; REG_PA_CONFIG; REG_PA_RAMP; REG_OCP; REG_LNA;
    REG_FIFO_ADDR_PTR; REG_FIFO_TX_BASE_ADDR; REG_FIFO_RX_BASE_ADDR;
    REG_FIFO_RX_CURRENT_ADDR; REG_IRQ_FLAGS_MASK; REG_IRQ_FLAGS;
    REG_RX_NUM_BYTES; REG_RX_PACKET_COUNT_MSB; REG_RX_PACKET_COUNT_LSB;
    REG_MODEM_STAT; REG_PACKET_SNR; REG_PACKET_RSSI; REG_CURRENT_RSSI;
    REG_HOP_CHANNEL; REG_MODEM_CONFIG1; REG_MODEM_CONFIG2;
    REG_PREAMBLE_LEN_MSB; REG_PREAMBLE_LEN_LSB; REG_PAYLOAD_LEN;
    REG_MAX_PAYLOAD_LEN; REG_HOP_PERIOD; REG_MODEM_CONFIG3;
    REG_DETECT_OPTIMIZE; REG_DETECT_THRESH; REG_SYNC_WORD ].

(** ** The peripheral on the bus *)

(** What the program can observe of the chip: the select line frames a
    transfer, and inside a frame every byte shifted out on MOSI comes with
    one byte shifted in on MISO at the same time. *)
Class SpiPeripheral (Dev : Type) := {
  cs_assert  : Dev -> Dev;
  shift      : Z -> Dev -> Z * Dev;
  cs_release : Dev -> Dev
}.

(** Bytes are shifted starting at the first element of the buffer. *)
Fixpoint clock_out `{SpiPeripheral Dev} (bytes : list Z) (d : Dev)
  : list Z * Dev :=
  match bytes with
  | [] => ([], d)
  | b :: rest =>
      let '(r, d1) := shift b d in
      let '(rs, d2) := clock_out rest d1 in
      (r :: rs, d2)
  end.

(** ** Observable events *)

Inductive libcall :=
| spi_setBitOrder_MSBFIRST
| spi_setDataMode_MODE0
| spi_setClockDivider_65536
| spi_chipSelect_CS0
| spi_setChipSelectPolarity_CS0_LOW
| gpio_fsel_P1_11_OUTP
| gpio_set_P1_11
| spi_end
| bcm2835_close.

Inductive event :=
| EvInit (result : bool)                      (* bcm2835_init() *)
| EvSpiBegin (result : bool)                  (* bcm2835_spi_begin() *)
| EvLib (c : libcall)
| EvTransfer (tbuf rbuf : list Z) (len : nat) (* buffers after the transfer *)
| EvPrintf (fmt : string) (args : list Z)
| EvSpin (iterations : Z).                    (* a completed busy-wait loop *)

Section Program.

Context {Dev : Type} `{SpiPeripheral Dev}.

(** The world the program runs in: the chip, what the two initialisation
    calls of the library will answer, and the events so far (oldest first). *)
Record world := World {
  device     : Dev;
  init_ok    : bool;
  spi_ok     : bool;
  trace      : list event
}.

Definition M (A : Type) : Type := world -> A * world.

Definition ret {A} (a : A) : M A := fun w => (a, w).

Definition bind {A B} (c : M A) (k : A -> M B) : M B :=
  fun w => let '(a, w1) := c w in k a w1.

Definition emit (e : event) : M unit :=
  fun w => (tt, World (device w) (init_ok w) (spi_ok w) (trace w ++ [e])).

End Program.

Arguments world : clear implicits.
Arguments M : clear implicits.

Declare Scope prog_scope.
Delimit Scope prog_scope with prog.
Notation "'let*' x ':=' c 'in' k" := (bind c (fun x => k))
  (at level 10, x name, c at level 100, k at level 200) : prog_scope.
Notation "c '>>' k" := (bind c (fun _ => k))
  (at level 65, right associativity) : prog_scope.

Section Transport.

Context {Dev : Type} `{SpiPeripheral Dev}.
Local Open Scope prog_scope.

(** Modelled from the spec: the bcm2835 library is an external collaborator
    and is not part of the sources.  [bcm2835_spi_transfernb(tbuf, rbuf, len)]
    is the full-duplex primitive of section 6: it selects the chip, shifts
    out [len] bytes of [tbuf] while storing the byte shifted in at the same
    position of [rbuf], and releases the chip. *)
Definition bcm2835_spi_transfernb (tbuf rbuf : list Z) (len : nat)
  : M Dev (list Z) :=
  fun w =>
    let '(inbound, d) := clock_out (take len tbuf) (cs_assert (device w)) in
    let rbuf' := (to_char <$> inbound) ++ drop len rbuf in
    (rbuf', World (cs_release d) (init_ok w) (spi_ok w)
                  (trace w ++ [EvTransfer tbuf rbuf' len])).

Definition printf (fmt : string) (args : list Z) : M Dev unit :=
  emit (EvPrintf fmt args).

(** [uint8_t read_reg(uint8_t addr)] *)
Definition read_reg (addr : Z) : M Dev Z :=
  let tbuf := [to_char addr; to_char 0x00] in
  let rbuf := [to_char 0x00; to_char 0x00] in
  let* rbuf := bcm2835_spi_transfernb tbuf rbuf (length tbuf) in
  printf "Read value 0x%02X from register 0x%02X.\n" [nth 1 rbuf 0; addr] >>
  ret (nth 1 rbuf 0).

(** [uint8_t write_reg(uint8_t addr, uint8_t data)] *)
Definition write_reg (addr data : Z) : M Dev Z :=
  let tbuf := [to_char (Z.lor addr 0x80); to_char data] in
  let rbuf := [to_char 0x00; to_char 0x00] in
  let* rbuf := bcm2835_spi_transfernb tbuf rbuf (length tbuf) in
  printf "Wrote value 0x%02X to register 0x%02X.\n" [data; addr] >>
  ret (nth 1 rbuf 0).

End Transport.

(** ** The busy-wait loop *)

(** A [while] loop on a pure state, run for at most [fuel] iterations; once
    the guard is false the state no longer changes. *)
Definition while_loop {S : Type} (fuel : N) (cond : S -> bool) (body : S -> S)
  : S -> S :=
  N.iter fuel (fun s => if cond s then body s else s).

(** [int i = 0; while(i<5000000){ i++; }], with a ghost counter [n] of the
    iterations executed next to the C variable [i]. *)
Definition spin_cond (s : Z * Z) : bool := fst s <? 5000000.
Definition spin_body (s : Z * Z) : Z * Z := (fst s + 1, snd s + 1).
Definition spin_fuel : N := 5000000.

Section Sequencer.

Context {Dev : Type} `{SpiPeripheral Dev}.
Local Open Scope prog_scope.

Definition bcm2835_init : M Dev bool :=
  fun w => (init_ok w,
            World (device w) (init_ok w) (spi_ok w)
                  (trace w ++ [EvInit (init_ok w)])).

Definition bcm2835_spi_begin : M Dev bool :=
  fun w => (spi_ok w,
            World (device w) (init_ok w) (spi_ok w)
                  (trace w ++ [EvSpiBegin (spi_ok w)])).

Definition lib (c : libcall) : M Dev unit := emit (EvLib c).

Definition busy_wait : M Dev unit :=
  fun w =>
    let s := while_loop spin_fuel spin_cond spin_body (0, 0) in
    emit (EvSpin (snd s)) w.

(** [void diagnose(void)] *)
Definition diagnose : M Dev unit :=
  read_reg REG_OP_MODE >>
  read_reg REG_RF_FREQ_MSB_MSB >>
  read_reg REG_RF_FREQ_MSB >>
  read_reg REG_RF_FREQ_LSB >>
  read_reg REG_PA_CONFIG >>
  read_reg REG_PA_RAMP >>
  read_reg REG_OCP >>
  read_reg REG_LNA >>
  read_reg REG_FIFO_ADDR_PTR >>
  read_reg REG_FIFO_TX_BASE_ADDR >>
  read_reg REG_FIFO_RX_BASE_ADDR >>
  read_reg REG_FIFO_RX_CURRENT_ADDR >>
  read_reg REG_IRQ_FLAGS_MASK >>
  read_reg REG_IRQ_FLAGS >>
  read_reg REG_RX_NUM_BYTES >>
  read_reg REG_RX_PACKET_COUNT_MSB >>
  read_reg REG_RX_PACKET_COUNT_LSB >>
  read_reg REG_MODEM_STAT >>
  read_reg REG_PACKET_SNR >>
  read_reg REG_PACKET_RSSI >>
  read_reg REG_CURRENT_RSSI >>
  read_reg REG_HOP_CHANNEL >>
  read_reg REG_MODEM_CONFIG1 >>
  read_reg REG_MODEM_CONFIG2 >>
  read_reg REG_PREAMBLE_LEN_MSB >>
  read_reg REG_PREAMBLE_LEN_LSB >>
  read_reg REG_PAYLOAD_LEN >>
  read_reg REG_MAX_PAYLOAD_LEN >>
  read_reg REG_HOP_PERIOD >>
  read_reg REG_MODEM_CONFIG3 >>
  read_reg REG_DETECT_OPTIMIZE >>
  read_reg REG_DETECT_THRESH >>
  read_reg REG_SYNC_WORD >>
  ret tt.

(** The part of [main] after the standby check has passed: the diagnostic
    pass, the transmit test and the shutdown of the library. *)
Definition main_after_standby : M Dev Z :=
  (* reading relevant LoRa registers for diagnostics *)
  diagnose >>
  (* test tx *)
  read_reg REG_FIFO_ADDR_PTR >>
  write_reg REG_FIFO_ADDR_PTR FIFO_TX_BASE_ADDR >>
  write_reg REG_FIFO 0xCC >>
  write_reg REG_OP_MODE LORA_TX >>
  busy_wait >>
  (* confirm Tx *)
  read_reg REG_IRQ_FLAGS >>
  read_reg REG_OP_MODE >>
  lib spi_end >>
  lib bcm2835_close >>
  ret 0.

(** [int main(int argc, char **argv)]; the result is the exit status. *)
Definition main : M Dev Z :=
  let* ok := bcm2835_init in
  if negb ok then
    printf "bcm2835_init failed.  Must run as root.\n" [] >> ret 1
  else
  let* ok := bcm2835_spi_begin in
  if negb ok then
    printf "bcm2835_spi_begin failed.  Must run as root.\n" [] >> ret 1
  else
  lib spi_setBitOrder_MSBFIRST >>
  lib spi_setDataMode_MODE0 >>
  lib spi_setClockDivider_65536 >>
  lib spi_chipSelect_CS0 >>
  lib spi_setChipSelectPolarity_CS0_LOW >>
  lib gpio_fsel_P1_11_OUTP >>
  lib gpio_set_P1_11 >>
  (* Checks device boot mode and enters LoRa standby regardless *)
  let* bootmode := read_reg REG_OP_MODE in
  (if Z.land bootmode 0x80 =? 0x00
   then write_reg REG_OP_MODE FSK_SLEEP >> ret tt
   else ret tt) >>
  write_reg REG_OP_MODE LORA_SLEEP >>
  write_reg REG_OP_MODE LORA_STANDBY >>
  let* mode := read_reg REG_OP_MODE in
  if negb (mode =? LORA_STANDBY) then
    printf "There was a problem entering LORA_STANDBY.\n" [] >> ret 1
  else
    printf "Device has entered LORA_STANDBY.\n" [] >>
    main_after_standby.

End Sequencer.

(** A fresh run: nothing has happened yet. *)
Definition boot {Dev : Type} (d : Dev) (init spi : bool) : world Dev :=
  World d init spi [].

(** ** Reading a trace *)

(** The outbound buffer of every transfer, in order. *)
Definition outbound (t : list event) : list (list Z) :=
  omap (fun e => match e with EvTransfer tb _ _ => Some tb | _ => None end) t.

(** The transfers of a trace, with both buffers and the length. *)
Definition transfers (t : list event) : list (list Z * list Z * nat) :=
  omap (fun e => match e with
                 | EvTransfer tb rb len => Some (tb, rb, len)
                 | _ => None
                 end) t.

(** What happens on the bus and in between: transfers and completed waits. *)
Inductive bus_action :=
| Exchange (tbuf : list Z)
| Wait (iterations : Z).

Definition bus_actions (t : list event) : list bus_action :=
  omap (fun e => match e with
                 | EvTransfer tb _ _ => Some (Exchange tb)
                 | EvSpin n => Some (Wait n)
                 | _ => None
                 end) t.

(** The peripheral takes a frame for a write when the most significant bit
    of its first byte is set, and for a read otherwise. *)
Definition is_write_frame (tbuf : list Z) : bool := Z.testbit (hd 0 tbuf) 7.

(** The values obtained by the reads of register [addr]: the second inbound
    byte of every transfer whose first outbound byte is [addr]. *)
Definition reads_of (addr : Z) (t : list event) : list Z :=
  omap (fun e => match e with
                 | EvTransfer tb rb _ =>
                     if decide (hd 0 tb = addr) then Some (nth 1 rb 0) else None
                 | _ => None
                 end) t.

(** The frames of the mode guard and of the entry into standby, up to and
    including the read-back that the standby check compares. *)
Definition standby_entry_frames (bootmode : Z) : list (list Z) :=
  [[REG_OP_MODE; 0x00]] ++
  (if Z.testbit bootmode 7 then [] else [[0x81; FSK_SLEEP]]) ++
  [[0x81; LORA_SLEEP]; [0x81; LORA_STANDBY]; [REG_OP_MODE; 0x00]].

Definition diagnose_frames : list (list Z) :=
  (fun a => [a; 0x00]) <$> filter (fun a => a <> REG_FIFO) defined_registers.

Definition transmit_test_actions : list bus_action :=
  [ Exchange [REG_FIFO_ADDR_PTR; 0x00];
    Exchange [0x8D; FIFO_TX_BASE_ADDR];
    Exchange [0x80; 0xCC];
    Exchange [0x81; LORA_TX];
    Wait 5000000;
    Exchange [REG_IRQ_FLAGS; 0x00];
    Exchange [REG_OP_MODE; 0x00] ].

Definition after_standby_actions : list bus_action :=
  (Exchange <$> diagnose_frames) ++ transmit_test_actions.

(** ** A mock peripheral *)

(** A register file with one byte per 7-bit address.  Inside a frame the
    first byte received is the address byte and is answered with an idle
    byte; the second byte is answered with the content of the addressed
    register and, when bit 7 of the address byte is set, replaces it. *)
Module Mock.

Inductive phase :=
| Idle
| Addressed (first : Z).

Record t := Make {
  regs  : gmap Z Z;
  idle  : Z;
  state : phase
}.

Definition reg_value (m : t) (a : Z) : Z :=
  to_char (default 0x00 (regs m !! a)).

Definition on_select (m : t) : t := Make (regs m) (idle m) Idle.

Definition on_shift (b : Z) (m : t) : Z * t :=
  match state m with
  | Idle => (idle m, Make (regs m) (idle m) (Addressed b))
  | Addressed first =>
      let a := Z.land first 0x7F in
      if Z.testbit first 7
      then (reg_value m a, Make (<[a := b]> (regs m)) (idle m) (Addressed first))
      else (reg_value m a, m)
  end.

#[global] Instance peripheral : SpiPeripheral t := {
  cs_assert := on_select;
  shift := on_shift;
  cs_release := on_select
}.

(** The chip as the source describes it after power-up: operating mode
    [FSK_CAD], every other register zero. *)
Definition power_up : t := Make {[ REG_OP_MODE := FSK_CAD ]} 0x00 Idle.

(** A chip whose carrier-frequency MSB register holds its reset value
    [0x80] (the read example of the source's header comment). *)
Definition freq_reset : t := Make {[ REG_RF_FREQ_MSB := 0x80 ]} 0x00 Idle.

(** A chip that is already in LoRa standby, has a TxDone flag pending and
    drives [0xFF] while it is being addressed. *)
Definition in_standby : t :=
  Make {[ REG_OP_MODE := LORA_STANDBY; REG_IRQ_FLAGS := 0x08 ]} 0xFF Idle.

End Mock.

(** A peripheral that ignores what it is sent and answers every byte with
    [FSK_CAD]: a chip that never changes mode. *)
Module Stuck.

Inductive t := Chip.

#[global] Instance peripheral : SpiPeripheral t := {
  cs_assert := fun c => c;
  shift := fun _ c => (FSK_CAD, c);
  cs_release := fun c => c
}.

End Stuck.

(** ** What a command does to the trace *)

Section Issues.

Context {Dev : Type} `{SpiPeripheral Dev}.

(** [issues c acts Q]: from any world, [c] only appends events, the bus
    actions among them are exactly [acts], and its result satisfies [Q]. *)
Definition issues {A : Type} (c : M Dev A) (acts : list bus_action)
  (Q : A -> Prop) : Prop :=
  forall w, exists evs,
    trace (snd (c w)) = trace w ++ evs /\
    bus_actions evs = acts /\
    Q (fst (c w)).

End Issues.

(** The value the standby check compares: the second read of the
    operating-mode register of a run (the first one is the boot mode). *)
Definition standby_check_read (t : list event) : option Z :=
  reads_of REG_OP_MODE t !! 1%nat.

(** The last value read from a register in a run. *)
Definition final_read (addr : Z) (t : list event) : option Z :=
  last (reads_of addr t).

(** ** Invariants of runs *)

(** A transfer as the program performs them: two bytes out, two bytes in. *)
Definition transfer_ok (e : event) : Prop :=
  match e with
  | EvTransfer tbuf rbuf len =>
      len = 2%nat /\ length tbuf = 2%nat /\ length rbuf = 2%nat /\
      Forall is_byte tbuf /\ Forall is_byte rbuf
  | _ => True
  end.

(** The calls that configure the bus and the reset pin, in the order of
    [main]. *)
Definition configuration : list event :=
  [ EvLib spi_setBitOrder_MSBFIRST; EvLib spi_setDataMode_MODE0;
    EvLib spi_setClockDivider_65536; EvLib spi_chipSelect_CS0;
    EvLib spi_setChipSelectPolarity_CS0_LOW;
    EvLib gpio_fsel_P1_11_OUTP; EvLib gpio_set_P1_11 ].

(** The calls that give the bus back to the library at the end of [main]. *)
Definition library_shutdown : list event :=
  [ EvLib spi_end; EvLib bcm2835_close ].

Definition not_shutdown (e : event) : Prop :=
  e <> EvLib spi_end /\ e <> EvLib bcm2835_close.

(** After the configuration the only library calls left are the two of the
    shutdown. *)
Definition after_configuration (e : event) : Prop :=
  forall c, e = EvLib c -> c = spi_end \/ c = bcm2835_close.

(** The message of the failed standby check. *)
Definition standby_failure_message : event :=
  EvPrintf "There was a problem entering LORA_STANDBY.\n" [].

Section RunInvariants.

Context {Dev : Type} `{SpiPeripheral Dev}.

(** [emits_only P c]: from any world, [c] only appends events, all of which
    satisfy [P]. *)
Definition emits_only {A : Type} (P : event -> Prop) (c : M Dev A) : Prop :=
  forall w, exists evs,
    trace (snd (c w)) = trace w ++ evs /\ Forall P evs.

(** [outcome P tail c]: [c] returns an exit status; with status 0 the events
    it appends end with [tail] and satisfy [P] before it, with status 1 they
    all satisfy [P]. *)
Definition outcome (P : event -> Prop) (tail : list event) (c : M Dev Z)
  : Prop :=
  forall w, exists evs,
    trace (snd (c w)) = trace w ++ evs /\
    ((fst (c w) = 0 /\ exists body, evs = body ++ tail /\ Forall P body) \/
     (fst (c w) = 1 /\ Forall P evs)).

(** [on_success P c]: [c] only appends events, and when it returns 0 all of
    them satisfy [P]. *)
Definition on_success (P : event -> Prop) (c : M Dev Z) : Prop :=
  forall w, exists evs,
    trace (snd (c w)) = trace w ++ evs /\
    (fst (c w) = 0 -> Forall P evs).

End RunInvariants.

(** * Properties *)

(** ** Bytes and bits *)

Lemma to_char_byte z : is_byte z -> to_char z = z.
Proof. unfold is_byte, to_char. intros Hz. apply Z.mod_small. lia. Qed.

Lemma to_char_is_byte z : is_byte (to_char z).
Proof. unfold is_byte, to_char. apply Z.mod_pos_bound. lia. Qed.

Lemma to_char_idemp z : to_char (to_char z) = to_char z.
Proof. apply to_char_byte, to_char_is_byte. Qed.

Lemma land_0x80_testbit b : (Z.land b 0x80 =? 0x00) = negb (Z.testbit b 7).
Proof.
  change 0x80 with (2 ^ 7).
  destruct (Z.testbit b 7) eqn:Hb; simpl.
  - apply Z.eqb_neq. intros Hz.
    assert (Ht : Z.testbit (Z.land b (2 ^ 7)) 7 = true).
    { rewrite Z.land_spec, Hb, Z.pow2_bits_true by lia. reflexivity. }
    rewrite Hz, Z.bits_0 in Ht. discriminate.
  - apply Z.eqb_eq. apply Z.bits_inj'. intros n Hn.
    rewrite Z.land_spec, Z.bits_0, Z.pow2_bits_eqb by lia.
    destruct (Z.eqb_spec 7 n) as [<-|]; [rewrite Hb; reflexivity|].
    apply andb_false_r.
Qed.

Lemma lor_0x80_byte a : is_byte a -> is_byte (Z.lor a 0x80).
Proof.
  unfold is_byte. intros [Hlo Hhi]. split.
  - apply Z.lor_nonneg. lia.
  - change 256 with (2 ^ 8). apply Z.log2_lt_pow2.
    + assert (0 <= Z.lor a 0x80) by (apply Z.lor_nonneg; lia).
      assert (Z.lor a 0x80 <> 0); [|lia].
      intros Hz. apply Z.lor_eq_0_iff in Hz. lia.
    + rewrite Z.log2_lor by lia.
      apply Z.max_lub_lt; [|reflexivity].
      destruct (Z.eq_dec a 0) as [->|]; [reflexivity|].
      apply Z.log2_lt_pow2; lia.
Qed.

Lemma lor_0x80_idemp a : Z.lor (Z.lor a 0x80) 0x80 = Z.lor a 0x80.
Proof. rewrite <- Z.lor_assoc, Z.lor_diag. reflexivity. Qed.

Lemma lor_0x80_testbit a : Z.testbit (Z.lor a 0x80) 7 = true.
Proof. rewrite Z.lor_spec. apply orb_true_r. Qed.

Lemma low7_testbit a : 0 <= a <= 0x7F -> Z.testbit a 7 = false.
Proof.
  intros Ha. destruct (Z.eq_dec a 0) as [->|]; [apply Z.bits_0|].
  apply Z.bits_above_log2; [lia|].
  apply Z.log2_lt_pow2; simpl; lia.
Qed.

Lemma byte_bits_above a n : is_byte a -> 8 <= n -> Z.testbit a n = false.
Proof.
  intros [Hlo Hhi] Hn. destruct (Z.eq_dec a 0) as [->|]; [apply Z.bits_0|].
  apply Z.bits_above_log2; [lia|].
  assert (Z.log2 a < 8); [|lia].
  apply Z.log2_lt_pow2; simpl; lia.
Qed.

Lemma lor_land_0x80 a :
  is_byte a -> Z.testbit a 7 = true -> Z.lor (Z.land a 0x7F) 0x80 = a.
Proof.
  intros Ha Hb. apply Z.bits_inj'. intros n Hn.
  rewrite Z.lor_spec, Z.land_spec.
  change 0x7F with (Z.ones 7). change 0x80 with (2 ^ 7).
  destruct (Z.lt_trichotomy n 7) as [Hlt|[->|Hgt]].
  - rewrite Z.ones_spec_low, Z.pow2_bits_false by lia.
    rewrite andb_true_r, orb_false_r. reflexivity.
  - rewrite Z.pow2_bits_true, Hb by lia. apply orb_true_r.
  - rewrite Z.ones_spec_high, Z.pow2_bits_false by lia.
    rewrite andb_false_r. simpl. symmetry. apply byte_bits_above; [done|lia].
Qed.

(** ** Trace projections are homomorphisms *)

Lemma transfers_app t1 t2 : transfers (t1 ++ t2) = transfers t1 ++ transfers t2.
Proof. apply omap_app. Qed.

Lemma bus_actions_app t1 t2 :
  bus_actions (t1 ++ t2) = bus_actions t1 ++ bus_actions t2.
Proof. apply omap_app. Qed.

Lemma reads_of_app a t1 t2 : reads_of a (t1 ++ t2) = reads_of a t1 ++ reads_of a t2.
Proof. apply omap_app. Qed.

(** The frames of a trace are the exchanges among its bus actions. *)
Lemma outbound_bus_actions t :
  outbound t =
  omap (fun x => match x with Exchange tb => Some tb | Wait _ => None end)
       (bus_actions t).
Proof.
  induction t as [|e t IH]; [reflexivity|].
  destruct e; simpl; rewrite ?IH; reflexivity.
Qed.

Lemma outbound_of_exchanges t frames :
  bus_actions t = Exchange <$> frames -> outbound t = frames.
Proof.
  intros E. rewrite outbound_bus_actions, E. clear E.
  induction frames as [|f fs IH]; simpl; [reflexivity|]. f_equal. exact IH.
Qed.

(** ** The busy-wait loop runs to completion *)

Lemma spin_iter (k : N) : forall i n,
  i + Z.of_N k <= 5000000 ->
  N.iter k (fun s => if spin_cond s then spin_body s else s) (i, n)
  = (i + Z.of_N k, n + Z.of_N k).
Proof.
  induction k as [|k IH] using N.peano_ind; intros i n Hk.
  - simpl. f_equal; lia.
  - rewrite N.iter_succ, IH by lia.
    unfold spin_cond, spin_body. simpl.
    destruct (Z.ltb_spec (i + Z.of_N k) 5000000); [f_equal; lia | lia].
Qed.

Lemma spin_result :
  while_loop spin_fuel spin_cond spin_body (0, 0) = (5000000, 5000000).
Proof. unfold while_loop, spin_fuel. rewrite spin_iter; [reflexivity | simpl; lia]. Qed.

Lemma spin_exits :
  spin_cond (while_loop spin_fuel spin_cond spin_body (0, 0)) = false.
Proof. rewrite spin_result. reflexivity. Qed.

(** ** One register access is one two-byte transfer *)

Section TransportFacts.

Context {Dev : Type} `{SpiPeripheral Dev}.

Lemma bind_run {A B} (c : M Dev A) (k : A -> M Dev B) w a w1 :
  c w = (a, w1) -> bind c k w = k a w1.
Proof. unfold bind. intros ->. reflexivity. Qed.

Lemma clock_out_two a b (d : Dev) :
  clock_out [a; b] d =
  ([fst (shift a d); fst (shift b (snd (shift a d)))],
   snd (shift b (snd (shift a d)))).
Proof.
  simpl. destruct (shift a d) as [g d1]. simpl.
  destruct (shift b d1) as [v d2]. reflexivity.
Qed.

Lemma transfernb_two a b r0 r1 (w : world Dev) :
  bcm2835_spi_transfernb [a; b] [r0; r1] 2 w =
  let x1 := shift a (cs_assert (device w)) in
  let x2 := shift b (snd x1) in
  let rbuf := [to_char (fst x1); to_char (fst x2)] in
  (rbuf, World (cs_release (snd x2)) (init_ok w) (spi_ok w)
               (trace w ++ [EvTransfer [a; b] rbuf 2])).
Proof.
  unfold bcm2835_spi_transfernb.
  change (take 2 [a; b]) with [a; b]. rewrite clock_out_two. reflexivity.
Qed.

Lemma read_reg_run addr (w : world Dev) :
  read_reg addr w =
  let x1 := shift (to_char addr) (cs_assert (device w)) in
  let x2 := shift 0x00 (snd x1) in
  (to_char (fst x2),
   World (cs_release (snd x2)) (init_ok w) (spi_ok w)
     (trace w ++
      [EvTransfer [to_char addr; 0x00] [to_char (fst x1); to_char (fst x2)] 2;
       EvPrintf "Read value 0x%02X from register 0x%02X.\n"
                [to_char (fst x2); addr]])).
Proof.
  unfold read_reg. change (to_char 0x00) with 0x00.
  change (length [to_char addr; 0]) with 2%nat.
  erewrite bind_run by apply transfernb_two.
  cbn. rewrite <- app_assoc. reflexivity.
Qed.

Lemma write_reg_run addr data (w : world Dev) :
  write_reg addr data w =
  let x1 := shift (to_char (Z.lor addr 0x80)) (cs_assert (device w)) in
  let x2 := shift (to_char data) (snd x1) in
  (to_char (fst x2),
   World (cs_release (snd x2)) (init_ok w) (spi_ok w)
     (trace w ++
      [EvTransfer [to_char (Z.lor addr 0x80); to_char data]
                  [to_char (fst x1); to_char (fst x2)] 2;
       EvPrintf "Wrote value 0x%02X to register 0x%02X.\n" [data; addr]])).
Proof.
  unfold write_reg. change (to_char 0x00) with 0x00.
  change (length [to_char (Z.lor addr 128); to_char data]) with 2%nat.
  erewrite bind_run by apply transfernb_two.
  cbn. rewrite <- app_assoc. reflexivity.
Qed.

End TransportFacts.

(** ** Composing commands *)

Section IssuesFacts.

Context {Dev : Type} `{SpiPeripheral Dev}.

Lemma issues_ret {A} (a : A) (Q : A -> Prop) :
  Q a -> issues (Dev := Dev) (ret a) [] Q.
Proof. intros HQ w. exists []. simpl. rewrite app_nil_r. auto. Qed.

Lemma issues_bind {A B} (c : M Dev A) (k : A -> M Dev B) l1 l2 Q1 Q2 :
  issues c l1 Q1 ->
  (forall a, Q1 a -> issues (k a) l2 Q2) ->
  issues (bind c k) (l1 ++ l2) Q2.
Proof.
  intros Hc Hk w. unfold bind.
  destruct (Hc w) as (e1 & Ht1 & Ha1 & Hq1).
  destruct (c w) as [a w1]. simpl in *.
  destruct (Hk a Hq1 w1) as (e2 & Ht2 & Ha2 & Hq2).
  exists (e1 ++ e2). rewrite Ht2, Ht1, app_assoc, bus_actions_app, Ha1, Ha2.
  auto.
Qed.

Lemma issues_read_reg addr :
  issues (Dev := Dev) (read_reg addr) [Exchange [to_char addr; 0x00]] is_byte.
Proof.
  intros w. rewrite read_reg_run. cbv zeta. simpl.
  eexists. split; [reflexivity|]. split; [reflexivity|]. apply to_char_is_byte.
Qed.

Lemma issues_write_reg addr data :
  issues (Dev := Dev) (write_reg addr data)
         [Exchange [to_char (Z.lor addr 0x80); to_char data]] is_byte.
Proof.
  intros w. rewrite write_reg_run. cbv zeta. simpl.
  eexists. split; [reflexivity|]. split; [reflexivity|]. apply to_char_is_byte.
Qed.

Lemma issues_lib c : issues (Dev := Dev) (lib c) [] (fun _ => True).
Proof. intros w. eexists. simpl. split; [reflexivity|]. auto. Qed.

Lemma issues_busy_wait :
  issues (Dev := Dev) busy_wait [Wait 5000000] (fun _ => True).
Proof.
  intros w. unfold busy_wait. rewrite spin_result. simpl.
  eexists. split; [reflexivity|]. auto.
Qed.

(** A read whose result is not used. *)
Lemma issues_read_then {B} addr (k : M Dev B) l Q :
  issues k l Q ->
  issues (bind (read_reg addr) (fun _ => k))
         (Exchange [to_char addr; 0x00] :: l) Q.
Proof.
  intros Hk. change (Exchange [to_char addr; 0] :: l)
    with ([Exchange [to_char addr; 0]] ++ l).
  eapply issues_bind; [apply issues_read_reg | auto].
Qed.

Lemma issues_write_then {B} addr data (k : M Dev B) l Q :
  issues k l Q ->
  issues (bind (write_reg addr data) (fun _ => k))
         (Exchange [to_char (Z.lor addr 0x80); to_char data] :: l) Q.
Proof.
  intros Hk.
  change (Exchange [to_char (Z.lor addr 0x80); to_char data] :: l)
    with ([Exchange [to_char (Z.lor addr 0x80); to_char data]] ++ l).
  eapply issues_bind; [apply issues_write_reg | auto].
Qed.

Lemma issues_silent_then {B} (c : M Dev unit) (k : M Dev B) l Q :
  issues c [] (fun _ => True) -> issues k l Q ->
  issues (bind c (fun _ => k)) l Q.
Proof.
  intros Hc Hk. change l with ([] ++ l).
  eapply issues_bind; [apply Hc | auto].
Qed.

Lemma issues_diagnose :
  issues (Dev := Dev) diagnose (Exchange <$> diagnose_frames) (fun _ => True).
Proof.
  unfold diagnose.
  repeat (apply issues_read_then).
  apply issues_ret. exact I.
Qed.

Lemma issues_main_after_standby :
  issues (Dev := Dev) main_after_standby after_standby_actions (fun r => r = 0).
Proof.
  unfold main_after_standby, after_standby_actions.
  eapply issues_bind; [apply issues_diagnose | intros _ _].
  apply issues_read_then.
  apply (issues_write_then REG_FIFO_ADDR_PTR FIFO_TX_BASE_ADDR).
  apply (issues_write_then REG_FIFO 0xCC).
  apply (issues_write_then REG_OP_MODE LORA_TX).
  change (Wait 5000000 :: ?l) with ([Wait 5000000] ++ l).
  eapply issues_bind; [apply issues_busy_wait | intros _ _].
  do 2 apply issues_read_then.
  do 2 (apply issues_silent_then; [apply issues_lib|]).
  apply issues_ret. reflexivity.
Qed.

End IssuesFacts.

(** ** The run of [main] *)

Section MainFacts.

Context {Dev : Type} `{SpiPeripheral Dev}.

Ltac tidy := cbn [negb init_ok spi_ok device trace app fst snd].

Ltac run_silent := erewrite bind_run by reflexivity; tidy.

(* one register access: name the two inbound bytes and the chip afterwards *)
Ltac name_access g v d' :=
  cbv zeta; tidy;
  match goal with
  | |- context [shift ?a (cs_assert ?d)] =>
      destruct (shift a (cs_assert d)) as [g ?mid]; tidy
  end;
  match goal with
  | |- context [shift ?a ?d] => destruct (shift a d) as [v d']; tidy
  end.

Ltac run_access lem g v d' :=
  erewrite bind_run by apply lem; name_access g v d'.

(* from the standby check to the end of [main] *)
Ltac finish_main v3 Hbit :=
  let Heq := fresh "Heq" in
  let Hne := fresh "Hne" in
  let evs := fresh "evs" in
  let Ht := fresh "Ht" in
  let Ha := fresh "Ha" in
  let Hq := fresh "Hq" in
  destruct (Z.eqb_spec (to_char v3) LORA_STANDBY) as [Heq|Hne]; tidy;
  [ run_silent;
    match goal with
    | |- context [main_after_standby ?w] =>
        destruct (issues_main_after_standby w) as (evs & Ht & Ha & Hq);
        cbn [trace] in Ht;
        match type of Ht with
        | _ = ?pre ++ _ =>
            exists (removelast pre),
                   (EvPrintf "Device has entered LORA_STANDBY.\n" [] :: evs)
        end
    end;
    rewrite Ht
  | run_silent;
    match goal with
    | |- context [trace (snd (ret _ ?w))] =>
        exists (removelast (trace w)),
               [EvPrintf "There was a problem entering LORA_STANDBY.\n" []]
    end ];
  (split; [cbn [removelast]; rewrite <- ?app_assoc; reflexivity|]);
  (split; [unfold standby_entry_frames; rewrite Hbit; reflexivity|]);
  (split; [reflexivity|]);
  (split; [apply to_char_is_byte|]);
  (split; [apply to_char_is_byte|]);
  (split; [intros ?; try contradiction | intros ?; try contradiction]);
  auto.

Lemma main_run (d : Dev) :
  exists bootmode mode pre post,
    trace (snd (main (boot d true true))) = pre ++ post /\
    bus_actions pre = Exchange <$> standby_entry_frames bootmode /\
    reads_of REG_OP_MODE pre = [bootmode; mode] /\
    is_byte bootmode /\ is_byte mode /\
    (mode <> LORA_STANDBY ->
       fst (main (boot d true true)) = 1 /\
       post = [EvPrintf "There was a problem entering LORA_STANDBY.\n" []]) /\
    (mode = LORA_STANDBY ->
       fst (main (boot d true true)) = 0 /\
       bus_actions post = after_standby_actions).
Proof.
  unfold main, boot.
  do 9 run_silent.
  run_access @read_reg_run g0 v0 d0.
  rewrite land_0x80_testbit.
  exists (to_char v0).
  destruct (Z.testbit (to_char v0) 7) eqn:Hbit; tidy.
  - run_silent.
    run_access @write_reg_run g1 v1 d1.
    run_access @write_reg_run g2 v2 d2.
    run_access @read_reg_run g3 v3 d3.
    exists (to_char v3).
    finish_main v3 Hbit.
  - erewrite (bind_run (bind (write_reg REG_OP_MODE FSK_SLEEP) _))
      by (erewrite bind_run by apply write_reg_run; reflexivity).
    name_access gs vs ds.
    run_access @write_reg_run g1 v1 d1.
    run_access @write_reg_run g2 v2 d2.
    run_access @read_reg_run g3 v3 d3.
    exists (to_char v3).
    finish_main v3 Hbit.
Qed.
End MainFacts.

(** ** The mock peripheral *)

Lemma land_0x7F_id a : 0 <= a <= 0x7F -> Z.land a 0x7F = a.
Proof.
  intros Ha. change 0x7F with (Z.ones 7). rewrite Z.land_ones by lia.
  apply Z.mod_small. simpl. lia.
Qed.

Lemma land_lor_low7 a : 0 <= a <= 0x7F -> Z.land (Z.lor a 0x80) 0x7F = a.
Proof.
  intros Ha. rewrite Z.land_lor_distr_l.
  change (Z.land 0x80 0x7F) with 0. rewrite Z.lor_0_r.
  apply land_0x7F_id, Ha.
Qed.

Lemma low7_is_byte a : 0 <= a <= 0x7F -> is_byte a.
Proof. unfold is_byte. lia. Qed.

Lemma mock_reg_value_byte m a : to_char (Mock.reg_value m a) = Mock.reg_value m a.
Proof. apply to_char_idemp. Qed.

Lemma mock_write_run (m : Mock.t) a d i s t :
  0 <= a <= 0x7F ->
  write_reg a d (World m i s t) =
  (Mock.reg_value m a,
   World (Mock.Make (<[a := to_char d]> (Mock.regs m)) (Mock.idle m) Mock.Idle)
         i s
         (t ++ [EvTransfer [Z.lor a 0x80; to_char d]
                           [to_char (Mock.idle m); Mock.reg_value m a] 2;
                EvPrintf "Wrote value 0x%02X to register 0x%02X.\n" [d; a]])).
Proof.
  intros Ha. rewrite write_reg_run.
  rewrite (to_char_byte (Z.lor a 0x80))
    by (apply lor_0x80_byte, low7_is_byte, Ha).
  cbn [device init_ok spi_ok trace cs_assert shift cs_release Mock.peripheral].
  unfold Mock.on_shift, Mock.on_select; cbn [Mock.state Mock.regs Mock.idle fst snd].
  rewrite lor_0x80_testbit, land_lor_low7 by exact Ha.
  cbn [Mock.state Mock.regs Mock.idle fst snd].
  rewrite mock_reg_value_byte. reflexivity.
Qed.

Lemma mock_read_run (m : Mock.t) a i s t :
  0 <= a <= 0x7F ->
  read_reg a (World m i s t) =
  (Mock.reg_value m a,
   World (Mock.Make (Mock.regs m) (Mock.idle m) Mock.Idle) i s
         (t ++ [EvTransfer [a; 0x00]
                           [to_char (Mock.idle m); Mock.reg_value m a] 2;
                EvPrintf "Read value 0x%02X from register 0x%02X.\n"
                         [Mock.reg_value m a; a]])).
Proof.
  intros Ha. rewrite read_reg_run.
  rewrite (to_char_byte a) by (apply low7_is_byte, Ha).
  cbn [device init_ok spi_ok trace cs_assert shift cs_release Mock.peripheral].
  unfold Mock.on_shift, Mock.on_select; cbn [Mock.state Mock.regs Mock.idle fst snd].
  rewrite low7_testbit, land_0x7F_id by exact Ha.
  cbn [Mock.state Mock.regs Mock.idle fst snd].
  rewrite mock_reg_value_byte. reflexivity.
Qed.

Lemma mock_value_after_write (m : Mock.t) a d st :
  Mock.reg_value (Mock.Make (<[a := d]> (Mock.regs m)) (Mock.idle m) st) a
  = to_char d.
Proof. unfold Mock.reg_value. simpl. rewrite lookup_insert_eq. reflexivity. Qed.

(** * The register transport *)

(** C1.  For every address [a] in [0, 0x7F], [read_reg a] builds the outbound
    buffer [[a; 0x00]], performs exactly one full-duplex transfer, of exactly
    2 bytes, and returns the second inbound byte; the first inbound byte [g]
    only appears in the receive buffer and is dropped. *)
Theorem read_reg_exchange {Dev : Type} `{SpiPeripheral Dev}
  (a : Z) (w : world Dev) :
  0 <= a <= 0x7F ->
  exists g v d',
    clock_out [a; 0x00] (cs_assert (device w)) = ([g; v], d') /\
    read_reg a w =
      (to_char v,
       World (cs_release d') (init_ok w) (spi_ok w)
         (trace w ++
          [EvTransfer [a; 0x00] [to_char g; to_char v] 2;
           EvPrintf "Read value 0x%02X from register 0x%02X.\n"
                    [to_char v; a]])) /\
    transfers (trace (snd (read_reg a w))) =
      transfers (trace w) ++ [([a; 0x00], [to_char g; to_char v], 2%nat)].
Proof.
  intros Ha. rewrite read_reg_run, clock_out_two.
  rewrite (to_char_byte a) by (apply low7_is_byte, Ha). cbv zeta.
  do 3 eexists. split; [reflexivity|]. split; [reflexivity|].
  cbn [snd trace]. rewrite transfers_app. reflexivity.
Qed.

(** C2.  For every address [a] in [0, 0x7F] and data byte [d],
    [write_reg a d] builds the outbound buffer [[a | 0x80; d]], whose first
    byte has its most significant bit set, performs exactly one transfer of
    2 bytes and returns the second inbound byte; against the mock register
    file that byte is the value the register held before the write, and the
    register holds [d] afterwards. *)
Theorem write_reg_exchange (a d : Z) :
  0 <= a <= 0x7F -> is_byte d ->
  (forall (Dev : Type) (P : SpiPeripheral Dev) (w : world Dev),
     exists g v d',
       clock_out [Z.lor a 0x80; d] (cs_assert (device w)) = ([g; v], d') /\
       Z.testbit (Z.lor a 0x80) 7 = true /\
       write_reg a d w =
         (to_char v,
          World (cs_release d') (init_ok w) (spi_ok w)
            (trace w ++
             [EvTransfer [Z.lor a 0x80; d] [to_char g; to_char v] 2;
              EvPrintf "Wrote value 0x%02X to register 0x%02X.\n" [d; a]])) /\
       transfers (trace (snd (write_reg a d w))) =
         transfers (trace w) ++
         [([Z.lor a 0x80; d], [to_char g; to_char v], 2%nat)]) /\
  (forall (m : Mock.t) i s t,
     fst (write_reg a d (World m i s t)) = Mock.reg_value m a /\
     Mock.reg_value (device (snd (write_reg a d (World m i s t)))) a = d).
Proof.
  intros Ha Hd. split.
  - intros Dev P w. rewrite write_reg_run, clock_out_two.
    rewrite (to_char_byte (Z.lor a 0x80))
      by (apply lor_0x80_byte, low7_is_byte, Ha).
    rewrite (to_char_byte d) by exact Hd. cbv zeta.
    do 3 eexists. split; [reflexivity|].
    split; [apply lor_0x80_testbit|]. split; [reflexivity|].
    cbn [snd trace]. rewrite transfers_app. reflexivity.
  - intros m i s t. rewrite mock_write_run by exact Ha. cbn [fst snd device].
    split; [reflexivity|].
    rewrite mock_value_after_write, to_char_idemp. apply to_char_byte, Hd.
Qed.

(** C3.  Against the mock register file, for every address [a] in
    [0, 0x7F] and data byte [d]: [write_reg a d] followed by [read_reg a]
    makes the read return [d], and the write itself returns the value the
    mock held at [a] just before. *)
Theorem write_then_read_roundtrip (m : Mock.t) (a d : Z) (i s : bool)
  (t : list event) :
  0 <= a <= 0x7F -> is_byte d ->
  let after_write := write_reg a d (World m i s t) in
  let after_read := read_reg a (snd after_write) in
  fst after_read = d /\ fst after_write = Mock.reg_value m a.
Proof.
  intros Ha Hd. cbv zeta.
  rewrite mock_write_run by exact Ha. cbn [fst snd].
  rewrite mock_read_run by exact Ha. cbn [fst snd].
  split; [|reflexivity].
  rewrite mock_value_after_write, to_char_idemp. apply to_char_byte, Hd.
Qed.

(** C9.  For every byte [a], bit 7 set or not, [read_reg a] has a result and
    sends [a] unmasked as the first outbound byte.  When bit 7 of [a] is set
    the frame is one the peripheral takes for a write: the transfer is the
    one [write_reg (a & 0x7F) 0x00] performs, with the same effect on the
    peripheral, and the mock register file has register [a & 0x7F] set to
    zero by it. *)
Theorem read_reg_unmasked (a : Z) :
  is_byte a ->
  (forall (Dev : Type) (P : SpiPeripheral Dev) (w : world Dev),
     (exists rbuf,
        transfers (trace (snd (read_reg a w))) =
          transfers (trace w) ++ [([a; 0x00], rbuf, 2%nat)] /\
        fst (read_reg a w) = nth 1 rbuf 0) /\
     is_write_frame [a; 0x00] = Z.testbit a 7 /\
     (Z.testbit a 7 = true ->
        transfers (trace (snd (read_reg a w))) =
          transfers (trace (snd (write_reg (Z.land a 0x7F) 0x00 w))) /\
        device (snd (read_reg a w)) =
          device (snd (write_reg (Z.land a 0x7F) 0x00 w)) /\
        fst (read_reg a w) = fst (write_reg (Z.land a 0x7F) 0x00 w))) /\
  (forall (m : Mock.t) i s t,
     Z.testbit a 7 = true ->
     Mock.reg_value (device (snd (read_reg a (World m i s t)))) (Z.land a 0x7F)
     = 0x00).
Proof.
  intros Ha. split.
  - intros Dev P w. rewrite read_reg_run. cbv zeta. cbn [fst snd trace device].
    rewrite (to_char_byte a) by exact Ha.
    split; [|split].
    + eexists. rewrite transfers_app. split; reflexivity.
    + reflexivity.
    + intros Hbit. rewrite write_reg_run. cbv zeta. cbn [fst snd trace device].
      rewrite lor_land_0x80 by assumption.
      rewrite (to_char_byte a) by exact Ha. change (to_char 0) with 0.
      rewrite !transfers_app. auto.
  - intros m i s t Hbit.
    rewrite read_reg_run. rewrite (to_char_byte a) by exact Ha.
    cbn [device init_ok spi_ok trace cs_assert shift cs_release
         Mock.peripheral].
    unfold Mock.on_shift, Mock.on_select.
    cbn [Mock.state Mock.regs Mock.idle fst snd].
    rewrite Hbit. cbn [Mock.state Mock.regs Mock.idle fst snd device].
    apply mock_value_after_write.
Qed.

(** C10.  The write flag is idempotent: [write_reg a d] and
    [write_reg (a | 0x80) d] build the same outbound buffer and perform the
    same transfer, with the same effect on the peripheral and the same
    result; only the address printed differs.  [read_reg] has no such
    protection: for [a] in [0, 0x7F], [read_reg a] and [read_reg (a | 0x80)]
    send different frames, the second one being a write frame. *)
Theorem write_flag_idempotent {Dev : Type} `{SpiPeripheral Dev}
  (a d : Z) (w : world Dev) :
  (transfers (trace (snd (write_reg a d w))) =
     transfers (trace (snd (write_reg (Z.lor a 0x80) d w))) /\
   device (snd (write_reg a d w)) =
     device (snd (write_reg (Z.lor a 0x80) d w)) /\
   fst (write_reg a d w) = fst (write_reg (Z.lor a 0x80) d w)) /\
  (0 <= a <= 0x7F ->
   transfers (trace (snd (read_reg a w))) <>
     transfers (trace (snd (read_reg (Z.lor a 0x80) w))) /\
   exists rbuf,
     transfers (trace (snd (read_reg (Z.lor a 0x80) w))) =
       transfers (trace w) ++ [([Z.lor a 0x80; 0x00], rbuf, 2%nat)] /\
     is_write_frame [Z.lor a 0x80; 0x00] = true).
Proof.
  split.
  - rewrite !write_reg_run. cbv zeta. cbn [fst snd trace device].
    rewrite lor_0x80_idemp, !transfers_app. auto.
  - intros Ha. rewrite !read_reg_run. cbv zeta. cbn [fst snd trace device].
    rewrite (to_char_byte a) by (apply low7_is_byte, Ha).
    rewrite (to_char_byte (Z.lor a 0x80))
      by (apply lor_0x80_byte, low7_is_byte, Ha).
    rewrite !transfers_app. cbn [transfers omap]. split.
    + intros E. apply app_inv_head in E. injection E as E _ _.
      pose proof (lor_0x80_testbit a) as Hb. rewrite <- E in Hb.
      rewrite low7_testbit in Hb by exact Ha. discriminate.
    + eexists. split; [reflexivity|]. apply lor_0x80_testbit.
Qed.

(** * The device sequencer *)

Section SequencerFacts.

Context {Dev : Type} `{SpiPeripheral Dev}.

(** The bus actions and the exit status of a run of [main] whose library
    initialisation succeeds, in terms of the two values read from the
    operating-mode register before the standby check. *)
Lemma main_actions (d : Dev) :
  let r := main (boot d true true) in
  exists bootmode mode,
    reads_of REG_OP_MODE (trace (snd r)) !! 0%nat = Some bootmode /\
    standby_check_read (trace (snd r)) = Some mode /\
    is_byte bootmode /\ is_byte mode /\
    fst r = (if decide (mode = LORA_STANDBY) then 0 else 1) /\
    bus_actions (trace (snd r)) =
      (Exchange <$> standby_entry_frames bootmode) ++
      (if decide (mode = LORA_STANDBY) then after_standby_actions else []) /\
    (mode <> LORA_STANDBY ->
       last (trace (snd r)) =
       Some (EvPrintf "There was a problem entering LORA_STANDBY.\n" [])).
Proof.
  cbv zeta.
  destruct (main_run d)
    as (bootmode & mode & pre & post & Ht & Hpre & Hreads & Hb & Hm & Hne & Heq).
  exists bootmode, mode. unfold standby_check_read.
  rewrite Ht, reads_of_app, Hreads, bus_actions_app, Hpre.
  split; [reflexivity|]. split; [reflexivity|].
  split; [exact Hb|]. split; [exact Hm|].
  destruct (decide (mode = LORA_STANDBY)) as [E|NE].
  - destruct (Heq E) as [-> ->]. repeat split. intros ?. contradiction.
  - destruct (Hne NE) as [-> ->]. repeat split.
    intros _. apply last_snoc.
Qed.

End SequencerFacts.

(** C4 (as stated, with the last read of the operating-mode register of the
    run): on the mock register file the standby check passes and the run
    exits with status 0, yet the last value read from the operating-mode
    register, after the transmit test, is [LORA_TX], not [LORA_STANDBY]. *)
Lemma final_read_not_decisive :
  let r := main (boot Mock.power_up true true) in
  fst r = 0 /\
  final_read REG_OP_MODE (trace (snd r)) = Some LORA_TX /\
  ~ (fst r = 1 <->
     final_read REG_OP_MODE (trace (snd r)) <> Some LORA_STANDBY).
Proof.
  cbv zeta. remember (main (boot Mock.power_up true true)) as r eqn:Hr.
  assert (E : (fst r, final_read REG_OP_MODE (trace (snd r)))
              = (0, Some LORA_TX)).
  { rewrite Hr. unfold main, main_after_standby, busy_wait.
    rewrite spin_result. vm_compute. reflexivity. }
  clear Hr. injection E as E1 E2. rewrite E1, E2.
  split; [reflexivity|]. split; [reflexivity|].
  intros [_ Hback]. assert (E : 0 = 1); [|discriminate E].
  apply Hback. discriminate.
Qed.

(** C5.  When the first read of the operating-mode register returns a value
    with bit 7 clear, [main] writes [FSK_SLEEP] to the operating-mode
    register right after it, before the LoRa mode writes; when bit 7 is set
    no such write is issued anywhere in the run.  In both cases the writes
    of [LORA_SLEEP] and then [LORA_STANDBY] follow, and then the read-back. *)
Theorem mode_guard {Dev : Type} `{SpiPeripheral Dev} (d : Dev) :
  let t := trace (snd (main (boot d true true))) in
  exists bootmode rest,
    reads_of REG_OP_MODE t !! 0%nat = Some bootmode /\
    (Z.testbit bootmode 7 = false ->
       outbound t =
         [ [REG_OP_MODE; 0x00]; [0x81; FSK_SLEEP]; [0x81; LORA_SLEEP];
           [0x81; LORA_STANDBY]; [REG_OP_MODE; 0x00] ] ++ rest) /\
    (Z.testbit bootmode 7 = true ->
       outbound t =
         [ [REG_OP_MODE; 0x00]; [0x81; LORA_SLEEP];
           [0x81; LORA_STANDBY]; [REG_OP_MODE; 0x00] ] ++ rest /\
       [0x81; FSK_SLEEP] ∉ outbound t).
Proof.
  cbv zeta.
  destruct (main_actions d)
    as (bootmode & mode & Hboot & _ & _ & _ & _ & Hacts & _).
  cbv zeta in *.
  set (tail := if decide (mode = LORA_STANDBY) then after_standby_actions else [])
    in Hacts.
  exists bootmode,
    (omap (fun x => match x with Exchange tb => Some tb | Wait _ => None end)
          tail).
  split; [exact Hboot|].
  rewrite outbound_bus_actions, Hacts, omap_app.
  unfold standby_entry_frames.
  split; intros Hbit; rewrite Hbit.
  - reflexivity.
  - split; [reflexivity|].
    subst tail. destruct (decide (mode = LORA_STANDBY));
      apply (bool_decide_unpack _); vm_compute; exact I.
Qed.

(** C6.  From any state, [diagnose] performs exactly the transfers
    [[a; 0x00]] for [a] ranging over the defined register addresses other
    than [REG_FIFO], in the order of the register map and whatever the
    peripheral answers; every one of these frames is a read, and every
    defined register other than [REG_FIFO] is read exactly once, [REG_FIFO]
    never. *)
Theorem diagnose_reads_every_register {Dev : Type} `{SpiPeripheral Dev}
  (w : world Dev) :
  exists evs,
    trace (snd (diagnose w)) = trace w ++ evs /\
    bus_actions evs = Exchange <$> outbound evs /\
    outbound evs =
      (fun a => [a; 0x00]) <$> filter (fun a => a <> REG_FIFO) defined_registers /\
    Forall (fun f => is_write_frame f = false) (outbound evs) /\
    NoDup defined_registers /\
    Forall (fun a =>
              length (filter (fun f => f = [a; 0x00]) (outbound evs)) =
              if decide (a = REG_FIFO) then 0%nat else 1%nat)
           defined_registers.
Proof.
  destruct (issues_diagnose w) as (evs & Ht & Ha & _).
  exists evs. split; [exact Ht|].
  pose proof (outbound_of_exchanges _ _ Ha) as Ho.
  rewrite Ho. split; [exact Ha|]. split; [reflexivity|].
  split; [|split].
  - apply (bool_decide_unpack _). vm_compute. exact I.
  - apply (bool_decide_unpack _). vm_compute. exact I.
  - apply (bool_decide_unpack _). vm_compute. exact I.
Qed.

(** C7.  In a run that passes the standby check, the bus actions end with
    the transmit test, in this order: a read of the FIFO address pointer, the
    write of [FIFO_TX_BASE_ADDR] to the FIFO address pointer, the write of
    the payload byte [0xCC] to the FIFO, the write of [LORA_TX] to the
    operating-mode register, then the busy-wait loop run to completion (its
    guard [i < 5000000] is false when it ends, after 5000000 iterations),
    and only then the read of the IRQ flags followed by the read of the
    operating-mode register.  Nothing happens on the bus between the
    transmit trigger and the end of the wait. *)
Theorem transmit_test_order {Dev : Type} `{SpiPeripheral Dev} (d : Dev) :
  let t := trace (snd (main (boot d true true))) in
  standby_check_read t = Some LORA_STANDBY ->
  exists before,
    bus_actions t =
      before ++
      [ Exchange [REG_FIFO_ADDR_PTR; 0x00];
        Exchange [Z.lor REG_FIFO_ADDR_PTR 0x80; FIFO_TX_BASE_ADDR];
        Exchange [Z.lor REG_FIFO 0x80; 0xCC];
        Exchange [Z.lor REG_OP_MODE 0x80; LORA_TX];
        Wait 5000000;
        Exchange [REG_IRQ_FLAGS; 0x00];
        Exchange [REG_OP_MODE; 0x00] ] /\
    while_loop spin_fuel spin_cond spin_body (0, 0) = (5000000, 5000000) /\
    spin_cond (while_loop spin_fuel spin_cond spin_body (0, 0)) = false.
Proof.
  cbv zeta. intros Hchk.
  destruct (main_actions d)
    as (bootmode & mode & _ & Hchk' & _ & _ & _ & Hacts & _).
  cbv zeta in *. rewrite Hchk in Hchk'. injection Hchk' as <-.
  rewrite decide_True in Hacts by reflexivity.
  exists ((Exchange <$> standby_entry_frames bootmode) ++
          (Exchange <$> diagnose_frames)).
  split; [|split].
  - rewrite Hacts. unfold after_standby_actions.
    rewrite app_assoc. reflexivity.
  - apply spin_result.
  - apply spin_exits.
Qed.

(** C8.  Two runs that both read [LORA_STANDBY] at the standby check, on
    any two peripherals, both exit with status 0 and perform the same fixed
    sequence of bus actions after the check, whatever the peripherals answer
    from then on; the sequences before the check differ at most by the
    [FSK_SLEEP] write of the mode guard, and the two runs perform the same
    bus actions throughout when their boot modes agree on bit 7. *)
Theorem after_standby_independent
  {Dev1 : Type} {P1 : SpiPeripheral Dev1}
  {Dev2 : Type} {P2 : SpiPeripheral Dev2} (d1 : Dev1) (d2 : Dev2) :
  let r1 := main (boot d1 true true) in
  let r2 := main (boot d2 true true) in
  standby_check_read (trace (snd r1)) = Some LORA_STANDBY ->
  standby_check_read (trace (snd r2)) = Some LORA_STANDBY ->
  fst r1 = 0 /\ fst r2 = 0 /\
  exists boot1 boot2,
    reads_of REG_OP_MODE (trace (snd r1)) !! 0%nat = Some boot1 /\
    reads_of REG_OP_MODE (trace (snd r2)) !! 0%nat = Some boot2 /\
    bus_actions (trace (snd r1)) =
      (Exchange <$> standby_entry_frames boot1) ++ after_standby_actions /\
    bus_actions (trace (snd r2)) =
      (Exchange <$> standby_entry_frames boot2) ++ after_standby_actions /\
    (Z.testbit boot1 7 = Z.testbit boot2 7 ->
     bus_actions (trace (snd r1)) = bus_actions (trace (snd r2))).
Proof.
  cbv zeta. intros Hc1 Hc2.
  destruct (main_actions d1)
    as (b1 & m1 & Hb1 & Hm1 & _ & _ & Hx1 & Ha1 & _).
  destruct (main_actions d2)
    as (b2 & m2 & Hb2 & Hm2 & _ & _ & Hx2 & Ha2 & _).
  cbv zeta in *.
  rewrite Hc1 in Hm1. injection Hm1 as <-.
  rewrite Hc2 in Hm2. injection Hm2 as <-.
  rewrite decide_True in Hx1, Hx2 by reflexivity.
  rewrite decide_True in Ha1, Ha2 by reflexivity.
  split; [exact Hx1|]. split; [exact Hx2|].
  exists b1, b2. repeat (split; [assumption|]).
  intros Hbits. rewrite Ha1, Ha2. unfold standby_entry_frames.
  rewrite Hbits. reflexivity.
Qed.

(** * Concrete runs *)

(* evaluate a run of [main] on a concrete peripheral, the busy-wait loop
   being replaced by its result *)
Ltac eval_main :=
  unfold main, main_after_standby, busy_wait; rewrite spin_result; vm_compute.

(** The three interactions of the source's header comment, on the mock. *)
Example header_read_example :
  read_reg 0x07 (boot Mock.freq_reset true true) =
  (0x80,
   World Mock.freq_reset true true
     [EvTransfer [0x07; 0x00] [0x00; 0x80] 2;
      EvPrintf "Read value 0x%02X from register 0x%02X.\n" [0x80; 0x07]]).
Proof. vm_compute. reflexivity. Qed.

Example header_write_example :
  transfers (trace (snd (write_reg 0x01 0x08 (boot Mock.power_up true true))))
  = [([0x81; 0x08], [0x00; 0x0F], 2%nat)].
Proof. vm_compute. reflexivity. Qed.

Example header_read_back_example :
  transfers (trace (snd (read_reg 0x01
               (snd (write_reg 0x01 0x08 (boot Mock.power_up true true))))))
  = [([0x81; 0x08], [0x00; 0x0F], 2%nat); ([0x01; 0x00], [0x00; 0x08], 2%nat)].
Proof. vm_compute. reflexivity. Qed.

(** Failing initialisation: nothing is sent on the bus. *)
Example init_failure_example :
  main (boot Mock.power_up false true) =
  (1, World Mock.power_up false true
        [EvInit false;
         EvPrintf "bcm2835_init failed.  Must run as root.\n" []]).
Proof. vm_compute. reflexivity. Qed.

(** The end-to-end scenario: a chip that boots in [FSK_CAD] is taken through
    FSK sleep, LoRa sleep and LoRa standby, passes the check, is dumped and
    transmits one byte. *)
Example end_to_end_example :
  let r := main (boot Mock.power_up true true) in
  fst r = 0 /\
  reads_of REG_OP_MODE (trace (snd r)) = [0x0F; 0x89; 0x89; 0x8B] /\
  bus_actions (trace (snd r)) =
    (Exchange <$> [[0x01; 0x00]; [0x81; 0x08]; [0x81; 0x88]; [0x81; 0x89];
                   [0x01; 0x00]]) ++
    (Exchange <$> diagnose_frames) ++
    [Exchange [0x0D; 0x00]; Exchange [0x8D; 0x80]; Exchange [0x80; 0xCC];
     Exchange [0x81; 0x8B]; Wait 5000000;
     Exchange [0x12; 0x00]; Exchange [0x01; 0x00]].
Proof. cbv zeta. split; [|split]; eval_main; reflexivity. Qed.

(** A chip that never leaves [FSK_CAD]: the standby check fails. *)
Example standby_failure_example :
  let r := main (boot Stuck.Chip true true) in
  fst r = 1 /\
  outbound (trace (snd r)) =
    [[0x01; 0x00]; [0x81; 0x08]; [0x81; 0x88]; [0x81; 0x89]; [0x01; 0x00]] /\
  last (trace (snd r)) =
    Some (EvPrintf "There was a problem entering LORA_STANDBY.\n" []).
Proof. cbv zeta. split; [|split]; eval_main; reflexivity. Qed.

(** The read example of the header comment: [tbuf = {0x07, 0x00}] comes back
    with [rbuf = {0x00, 0x80}]. *)
Lemma read_reg_exchange_witness :
  0 <= REG_RF_FREQ_MSB <= 0x7F /\
  exists g v d',
    clock_out [REG_RF_FREQ_MSB; 0x00]
              (cs_assert (device (boot Mock.freq_reset true true)))
      = ([g; v], d') /\
    read_reg REG_RF_FREQ_MSB (boot Mock.freq_reset true true) =
      (to_char v,
       World (cs_release d') true true
         ([] ++
          [EvTransfer [REG_RF_FREQ_MSB; 0x00] [to_char g; to_char v] 2;
           EvPrintf "Read value 0x%02X from register 0x%02X.\n"
                    [to_char v; REG_RF_FREQ_MSB]])) /\
    transfers (trace (snd (read_reg REG_RF_FREQ_MSB
                                    (boot Mock.freq_reset true true)))) =
      [] ++ [([REG_RF_FREQ_MSB; 0x00], [to_char g; to_char v], 2%nat)].
Proof.
  assert (Ha : 0 <= REG_RF_FREQ_MSB <= 0x7F) by (unfold REG_RF_FREQ_MSB; lia).
  split; [exact Ha|].
  exact (read_reg_exchange REG_RF_FREQ_MSB (boot Mock.freq_reset true true) Ha).
Defined.

(** The write example of the header comment: sending [{0x81, 0x08}] to a
    chip in [FSK_CAD] returns [0x0F] and leaves [0x08] in the register. *)
Lemma write_reg_exchange_witness :
  (0 <= REG_OP_MODE <= 0x7F) /\ is_byte FSK_SLEEP /\
  fst (write_reg REG_OP_MODE FSK_SLEEP (World Mock.power_up true true []))
    = Mock.reg_value Mock.power_up REG_OP_MODE /\
  Mock.reg_value
    (device (snd (write_reg REG_OP_MODE FSK_SLEEP
                            (World Mock.power_up true true []))))
    REG_OP_MODE = FSK_SLEEP.
Proof.
  assert (Ha : 0 <= REG_OP_MODE <= 0x7F) by (unfold REG_OP_MODE; lia).
  assert (Hd : is_byte FSK_SLEEP) by (unfold is_byte, FSK_SLEEP; lia).
  split; [exact Ha|]. split; [exact Hd|].
  exact (proj2 (write_reg_exchange REG_OP_MODE FSK_SLEEP Ha Hd)
               Mock.power_up true true []).
Defined.

Lemma write_then_read_roundtrip_witness :
  (0 <= REG_OP_MODE <= 0x7F) /\ is_byte FSK_SLEEP /\
  let after_write :=
    write_reg REG_OP_MODE FSK_SLEEP (World Mock.power_up true true []) in
  let after_read := read_reg REG_OP_MODE (snd after_write) in
  fst after_read = FSK_SLEEP /\
  fst after_write = Mock.reg_value Mock.power_up REG_OP_MODE.
Proof.
  assert (Ha : 0 <= REG_OP_MODE <= 0x7F) by (unfold REG_OP_MODE; lia).
  assert (Hd : is_byte FSK_SLEEP) by (unfold is_byte, FSK_SLEEP; lia).
  split; [exact Ha|]. split; [exact Hd|].
  exact (write_then_read_roundtrip Mock.power_up REG_OP_MODE FSK_SLEEP
                                   true true [] Ha Hd).
Defined.

(** Reading "address" [0x81] clears the operating-mode register of the
    mock. *)
Lemma read_reg_unmasked_witness :
  is_byte 0x81 /\ Z.testbit 0x81 7 = true /\
  Mock.reg_value
    (device (snd (read_reg 0x81 (World Mock.power_up true true []))))
    (Z.land 0x81 0x7F) = 0x00.
Proof.
  assert (Ha : is_byte 0x81) by (unfold is_byte; lia).
  split; [exact Ha|]. split; [reflexivity|].
  exact (proj2 (read_reg_unmasked 0x81 Ha) Mock.power_up true true []
               eq_refl).
Defined.

Lemma write_flag_idempotent_witness :
  (0 <= REG_OP_MODE <= 0x7F) /\
  transfers (trace (snd (read_reg REG_OP_MODE (boot Mock.power_up true true)))) <>
  transfers (trace (snd (read_reg (Z.lor REG_OP_MODE 0x80)
                                  (boot Mock.power_up true true)))).
Proof.
  assert (Ha : 0 <= REG_OP_MODE <= 0x7F) by (unfold REG_OP_MODE; lia).
  split; [exact Ha|].
  exact (proj1 (proj2 (write_flag_idempotent REG_OP_MODE 0x00
                         (boot Mock.power_up true true)) Ha)).
Defined.

(** The end-to-end scenario: the chip boots in [FSK_CAD]. *)
Lemma mode_guard_witness :
  exists rest,
    outbound (trace (snd (main (boot Mock.power_up true true)))) =
      [ [REG_OP_MODE; 0x00]; [0x81; FSK_SLEEP]; [0x81; LORA_SLEEP];
        [0x81; LORA_STANDBY]; [REG_OP_MODE; 0x00] ] ++ rest.
Proof.
  pose proof (mode_guard Mock.power_up) as W. cbv zeta in W.
  destruct W as (bootmode & rest & Hboot & Hclear & _).
  assert (E : reads_of REG_OP_MODE
                (trace (snd (main (boot Mock.power_up true true)))) !! 0%nat
              = Some FSK_CAD) by (eval_main; reflexivity).
  rewrite E in Hboot. injection Hboot as <-.
  exists rest. apply Hclear. reflexivity.
Defined.

Lemma transmit_test_order_witness :
  standby_check_read (trace (snd (main (boot Mock.power_up true true))))
    = Some LORA_STANDBY /\
  exists before,
    bus_actions (trace (snd (main (boot Mock.power_up true true)))) =
      before ++ transmit_test_actions.
Proof.
  assert (Hc : standby_check_read
                 (trace (snd (main (boot Mock.power_up true true))))
               = Some LORA_STANDBY) by (eval_main; reflexivity).
  split; [exact Hc|].
  pose proof (transmit_test_order Mock.power_up) as W. cbv zeta in W.
  destruct (W Hc) as (before & Hb & _).
  exists before. exact Hb.
Defined.

Lemma after_standby_independent_witness :
  standby_check_read (trace (snd (main (boot Mock.power_up true true))))
    = Some LORA_STANDBY /\
  standby_check_read (trace (snd (main (boot Mock.in_standby true true))))
    = Some LORA_STANDBY /\
  fst (main (boot Mock.power_up true true)) = 0 /\
  fst (main (boot Mock.in_standby true true)) = 0.
Proof.
  assert (H1 : standby_check_read
                 (trace (snd (main (boot Mock.power_up true true))))
               = Some LORA_STANDBY) by (eval_main; reflexivity).
  assert (H2 : standby_check_read
                 (trace (snd (main (boot Mock.in_standby true true))))
               = Some LORA_STANDBY) by (eval_main; reflexivity).
  split; [exact H1|]. split; [exact H2|].
  pose proof (after_standby_independent Mock.power_up Mock.in_standby) as W.
  cbv zeta in W. destruct (W H1 H2) as (E1 & E2 & _).
  split; [exact E1 | exact E2].
Defined.

(** * Further properties of the program *)

(** ** The busy-wait loop, iteration by iteration *)

Lemma spin_iter_min (k : N) :
  while_loop k spin_cond spin_body (0, 0)
  = (Z.min (Z.of_N k) 5000000, Z.min (Z.of_N k) 5000000).
Proof.
  unfold while_loop. induction k as [|k IH] using N.peano_ind.
  - reflexivity.
  - rewrite N.iter_succ, IH. unfold spin_cond, spin_body. cbn [fst snd].
    destruct (Z.ltb_spec (Z.min (Z.of_N k) 5000000) 5000000);
      f_equal; lia.
Qed.

(** The loop [while(i<5000000){ i++; }] started at [i = 0]: after [k]
    iterations of fuel [i] is [min k 5000000], so [i] stays within the range
    of a 32-bit [int], the guard is still true as long as fewer than 5000000
    iterations were run, and it is false from 5000000 iterations on. *)
Theorem busy_wait_needs_all_iterations (k : N) :
  let s := while_loop k spin_cond spin_body (0, 0) in
  fst s = Z.min (Z.of_N k) 5000000 /\
  snd s = fst s /\
  0 <= fst s < 2 ^ 31 /\
  (spin_cond s = false <-> 5000000 <= Z.of_N k).
Proof.
  cbv zeta. rewrite spin_iter_min. unfold spin_cond. cbn [fst snd].
  split; [reflexivity|]. split; [reflexivity|]. split; [lia|].
  rewrite Z.ltb_ge. lia.
Qed.

(** ** Invariants carried by every command *)

Section RunInvariantFacts.

Context {Dev : Type} `{SpiPeripheral Dev}.

Lemma emits_only_ret {A} P (a : A) : emits_only (Dev := Dev) P (ret a).
Proof. intros w. exists []. simpl. rewrite app_nil_r. auto. Qed.

Lemma emits_only_bind {A B} P (c : M Dev A) (k : A -> M Dev B) :
  emits_only P c -> (forall a, emits_only P (k a)) -> emits_only P (bind c k).
Proof.
  intros Hc Hk w. unfold bind.
  destruct (Hc w) as (e1 & Ht1 & Hp1).
  destruct (c w) as [a w1]. simpl in *.
  destruct (Hk a w1) as (e2 & Ht2 & Hp2).
  exists (e1 ++ e2). rewrite Ht2, Ht1, <- app_assoc. split; [reflexivity|].
  apply Forall_app. auto.
Qed.

Lemma emits_only_emit (P : event -> Prop) e :
  P e -> emits_only (Dev := Dev) P (emit e).
Proof. intros He w. exists [e]. simpl. auto. Qed.

Lemma emits_only_init (P : event -> Prop) :
  (forall b, P (EvInit b)) -> emits_only (Dev := Dev) P bcm2835_init.
Proof. intros He w. eexists. simpl. split; [reflexivity|]. auto. Qed.

Lemma emits_only_spi_begin (P : event -> Prop) :
  (forall b, P (EvSpiBegin b)) -> emits_only (Dev := Dev) P bcm2835_spi_begin.
Proof. intros He w. eexists. simpl. split; [reflexivity|]. auto. Qed.

Lemma emits_only_busy_wait (P : event -> Prop) :
  (forall n, P (EvSpin n)) -> emits_only (Dev := Dev) P busy_wait.
Proof.
  intros He w. unfold busy_wait. rewrite spin_result.
  eexists. cbn [emit snd trace]. split; [reflexivity|]. auto.
Qed.

Lemma emits_only_read_reg (P : event -> Prop) addr :
  (forall g v, P (EvTransfer [to_char addr; 0x00] [to_char g; to_char v] 2)) ->
  (forall fmt args, P (EvPrintf fmt args)) ->
  emits_only (Dev := Dev) P (read_reg addr).
Proof.
  intros Ht Hp w. rewrite read_reg_run. cbv zeta. simpl.
  eexists. split; [reflexivity|]. auto.
Qed.

Lemma emits_only_write_reg (P : event -> Prop) addr data :
  (forall g v, P (EvTransfer [to_char (Z.lor addr 0x80); to_char data]
                             [to_char g; to_char v] 2)) ->
  (forall fmt args, P (EvPrintf fmt args)) ->
  emits_only (Dev := Dev) P (write_reg addr data).
Proof.
  intros Ht Hp w. rewrite write_reg_run. cbv zeta. simpl.
  eexists. split; [reflexivity|]. auto.
Qed.

Lemma outcome_bind {A} P tail (c : M Dev A) (k : A -> M Dev Z) :
  emits_only P c -> (forall a, outcome P tail (k a)) ->
  outcome P tail (bind c k).
Proof.
  intros Hc Hk w. unfold bind.
  destruct (Hc w) as (e1 & Ht1 & Hp1).
  destruct (c w) as [a w1]. simpl in *.
  destruct (Hk a w1) as (e2 & Ht2 & [(Hz & body & -> & Hb) | (Ho & Hp2)]).
  - exists (e1 ++ body ++ tail). rewrite Ht2, Ht1, <- !app_assoc.
    split; [reflexivity|]. left. split; [exact Hz|].
    exists (e1 ++ body). rewrite <- app_assoc. split; [reflexivity|].
    apply Forall_app. auto.
  - exists (e1 ++ e2). rewrite Ht2, Ht1, <- !app_assoc.
    split; [reflexivity|]. right. split; [exact Ho|].
    apply Forall_app. auto.
Qed.

Lemma outcome_failure (P : event -> Prop) tail fmt :
  P (EvPrintf fmt []) ->
  outcome (Dev := Dev) P tail (bind (printf fmt []) (fun _ => ret 1)).
Proof.
  intros Hp w. exists [EvPrintf fmt []]. simpl.
  split; [reflexivity|]. right. auto.
Qed.

End RunInvariantFacts.

(** ** Invariants of [main] *)

Section MainInvariants.

Context {Dev : Type} `{SpiPeripheral Dev}.

Lemma transfer_ok_frame a b g v :
  transfer_ok (EvTransfer [to_char a; to_char b] [to_char g; to_char v] 2).
Proof.
  simpl. repeat split; repeat constructor; apply to_char_is_byte.
Qed.

Lemma not_shutdown_lib c :
  c <> spi_end -> c <> bcm2835_close -> not_shutdown (EvLib c).
Proof. intros H1 H2. split; congruence. Qed.

(* side conditions on single events *)
Ltac event_ok :=
  solve [ exact I
        | intros; exact I
        | intros; apply (transfer_ok_frame _ 0x00)
        | intros; apply transfer_ok_frame
        | intros; split; discriminate
        | apply not_shutdown_lib; discriminate
        | unfold after_configuration; intros; discriminate
        | unfold after_configuration; intros ? [= <-]; auto ].

(* every event a command emits satisfies the predicate *)
Ltac emits :=
  repeat first
    [ apply emits_only_ret
    | apply emits_only_read_reg; event_ok
    | apply emits_only_write_reg; event_ok
    | apply emits_only_emit; event_ok
    | apply emits_only_init; event_ok
    | apply emits_only_spi_begin; event_ok
    | apply emits_only_busy_wait; event_ok
    | apply emits_only_bind; [|intros ?]
    | match goal with
      | |- emits_only _ (if ?b then _ else _) => destruct b
      end ].

Lemma diagnose_emits_only (P : event -> Prop) :
  (forall tb rb, transfer_ok (EvTransfer tb rb 2) -> P (EvTransfer tb rb 2)) ->
  (forall fmt args, P (EvPrintf fmt args)) ->
  emits_only (Dev := Dev) P diagnose.
Proof.
  intros Ht Hp. unfold diagnose.
  repeat first
    [ apply emits_only_ret
    | apply emits_only_read_reg;
        [intros; apply Ht, (transfer_ok_frame _ 0x00) | exact Hp]
    | apply emits_only_bind; [|intros ?] ].
Qed.

Lemma main_transfers_ok : emits_only (Dev := Dev) transfer_ok main.
Proof.
  unfold main, main_after_standby, lib, printf.
  repeat first
    [ apply diagnose_emits_only; [auto | intros; exact I]
    | progress emits ].
Qed.

Lemma outcome_shutdown (P : event -> Prop) :
  outcome (Dev := Dev) P library_shutdown
    (bind (lib spi_end) (fun _ => bind (lib bcm2835_close) (fun _ => ret 0))).
Proof.
  intros w. exists library_shutdown.
  split; [unfold lib, emit, bind, ret; cbn; rewrite <- app_assoc; reflexivity|].
  left. split; [reflexivity|]. exists []. auto.
Qed.

(* the exit status and the events of a command that returns one *)
Ltac outcomes :=
  repeat first
    [ apply outcome_shutdown
    | apply outcome_failure; event_ok
    | apply outcome_bind;
        [ first [ apply diagnose_emits_only;
                    [intros; split; discriminate | intros; split; discriminate]
                | unfold lib, printf; emits ]
        | intros ? ]
    | match goal with
      | |- outcome _ _ (if ?b then _ else _) => destruct b
      end ].

Lemma main_outcome : outcome (Dev := Dev) not_shutdown library_shutdown main.
Proof. unfold main, main_after_standby. outcomes. Qed.

(** Every transfer of a run of [main], whatever the peripheral and whether
    or not the initialisation succeeds, sends two bytes and receives two
    bytes, with a length argument of 2. *)
Theorem every_transfer_is_two_bytes (d : Dev) (init spi : bool) :
  Forall transfer_ok (trace (snd (main (boot d init spi)))).
Proof.
  destruct (main_transfers_ok (boot d init spi)) as (evs & -> & Hok).
  exact Hok.
Qed.

(** [main] returns 0 or 1.  When it returns 0 its last two library calls are
    [bcm2835_spi_end] and [bcm2835_close], and they occur nowhere before;
    when it returns 1 (failed initialisation or failed standby check) neither
    of them is ever called. *)
Theorem library_shutdown_iff_success (d : Dev) (init spi : bool) :
  let r := main (boot d init spi) in
  (fst r = 0 /\
   exists body,
     trace (snd r) = body ++ library_shutdown /\ Forall not_shutdown body) \/
  (fst r = 1 /\ Forall not_shutdown (trace (snd r))).
Proof.
  cbv zeta.
  destruct (main_outcome (boot d init spi)) as (evs & -> & Hcases).
  exact Hcases.
Qed.

(** In a run whose initialisation succeeds, the bus and the reset pin are
    configured -- bit order, data mode, clock divider 65536, chip select,
    select polarity, pin 11 as output, pin 11 high, in this order -- before
    the first transfer, which is the read of the operating-mode register;
    no configuration call is made after it. *)
Theorem configuration_precedes_bus (d : Dev) :
  exists rbuf rest,
    trace (snd (main (boot d true true))) =
      [EvInit true; EvSpiBegin true] ++ configuration ++
      EvTransfer [REG_OP_MODE; 0x00] rbuf 2 :: rest /\
    Forall after_configuration rest.
Proof.
  unfold main, boot.
  do 9 (erewrite bind_run by reflexivity;
        cbn [negb init_ok spi_ok device trace app fst snd]).
  erewrite bind_run by apply read_reg_run. cbv zeta.
  match goal with
  | |- context [snd (?k ?w)] =>
      assert (Hk : emits_only after_configuration k);
      [ | destruct (Hk w) as (evs & -> & Hok) ]
  end.
  - unfold main_after_standby, lib, printf.
    repeat first
      [ apply diagnose_emits_only;
          [intros; intros ? ?; discriminate | intros; intros ? ?; discriminate]
      | progress emits ].
  - cbn [trace app]. do 2 eexists. split; [reflexivity|].
    constructor; [intros ? ?; discriminate | exact Hok].
Qed.

(** *** The failure message is printed on the failure path only *)

Lemma on_success_bind {A} P (c : M Dev A) (k : A -> M Dev Z) :
  emits_only P c -> (forall a, on_success P (k a)) ->
  on_success P (bind c k).
Proof.
  intros Hc Hk w. unfold bind.
  destruct (Hc w) as (e1 & Ht1 & Hp1).
  destruct (c w) as [a w1]. simpl in *.
  destruct (Hk a w1) as (e2 & Ht2 & Hp2).
  exists (e1 ++ e2). rewrite Ht2, Ht1, <- app_assoc. split; [reflexivity|].
  intros Hz. apply Forall_app. auto.
Qed.

Lemma on_success_failure P fmt :
  on_success (Dev := Dev) P (bind (printf fmt []) (fun _ => ret 1)).
Proof.
  intros w. exists [EvPrintf fmt []]. simpl. split; [reflexivity|].
  discriminate.
Qed.

Lemma on_success_emits P (c : M Dev Z) : emits_only P c -> on_success P c.
Proof.
  intros Hc w. destruct (Hc w) as (evs & Ht & Hp). exists evs. auto.
Qed.

Lemma quiet_read_reg addr :
  emits_only (Dev := Dev) (fun e => e <> standby_failure_message)
             (read_reg addr).
Proof.
  intros w. rewrite read_reg_run. cbv zeta. cbn [snd trace].
  eexists. split; [reflexivity|]. repeat constructor; discriminate.
Qed.

Lemma quiet_write_reg addr data :
  emits_only (Dev := Dev) (fun e => e <> standby_failure_message)
             (write_reg addr data).
Proof.
  intros w. rewrite write_reg_run. cbv zeta. cbn [snd trace].
  eexists. split; [reflexivity|]. repeat constructor; discriminate.
Qed.

(* commands that never print the failure message *)
Ltac quiet :=
  repeat first
    [ apply emits_only_ret
    | apply quiet_read_reg
    | apply quiet_write_reg
    | apply emits_only_emit; discriminate
    | apply emits_only_init; intros; discriminate
    | apply emits_only_spi_begin; intros; discriminate
    | apply emits_only_busy_wait; intros; discriminate
    | apply emits_only_bind; [|intros ?]
    | match goal with
      | |- emits_only _ (if ?b then _ else _) => destruct b
      end ].

Lemma quiet_main_after_standby :
  emits_only (Dev := Dev) (fun e => e <> standby_failure_message)
             main_after_standby.
Proof. unfold main_after_standby, diagnose, lib. quiet. Qed.

Lemma main_quiet_on_success :
  on_success (Dev := Dev) (fun e => e <> standby_failure_message) main.
Proof.
  unfold main.
  repeat first
    [ apply on_success_failure
    | match goal with
      | |- on_success _ main_after_standby =>
          apply on_success_emits, quiet_main_after_standby
      | |- on_success _ (if ?b then _ else _) => destruct b
      end
    | apply on_success_bind;
        [ unfold lib, printf; quiet | intros ? ] ].
Qed.

Lemma after_standby_actions_nonempty : after_standby_actions <> [].
Proof. discriminate. Qed.

(** C4 (amended).  When the library initialisation succeeds, the exit status
    of [main] is a function of one value only, the one read back from the
    operating-mode register right after the standby write (the second read
    of that register in the run): 1 when it differs from [LORA_STANDBY], 0
    when it equals it, whatever the later reads of that register return.
    Each part of the failure -- exit status 1, the failure message being
    printed, and the bus actions stopping at that read-back, without
    diagnostic pass or transmit test -- happens if and only if the read-back
    differs from [LORA_STANDBY]; when it equals [LORA_STANDBY] the run
    performs the diagnostic pass and the transmit test and exits with 0. *)
Theorem main_fails_iff_standby_check (d : Dev) :
  let r := main (boot d true true) in
  let t := trace (snd r) in
  exists bootmode mode,
    reads_of REG_OP_MODE t !! 0%nat = Some bootmode /\
    standby_check_read t = Some mode /\
    fst r = (if decide (mode = LORA_STANDBY) then 0 else 1) /\
    bus_actions t =
      (Exchange <$> standby_entry_frames bootmode) ++
      (if decide (mode = LORA_STANDBY) then after_standby_actions else []) /\
    (fst r = 1 <-> mode <> LORA_STANDBY) /\
    (standby_failure_message ∈ t <-> mode <> LORA_STANDBY) /\
    (bus_actions t = Exchange <$> standby_entry_frames bootmode
     <-> mode <> LORA_STANDBY) /\
    ((fst r = 1 /\ standby_failure_message ∈ t /\
      bus_actions t = Exchange <$> standby_entry_frames bootmode)
     <-> mode <> LORA_STANDBY).
Proof.
  cbv zeta.
  destruct (main_actions d)
    as (bootmode & mode & Hboot & Hchk & _ & _ & Hexit & Hacts & Hlast).
  cbv zeta in *.
  destruct (main_quiet_on_success (boot d true true)) as (evs & Ht & Hquiet).
  cbn [boot trace app] in Ht.
  exists bootmode, mode.
  split; [exact Hboot|]. split; [exact Hchk|].
  split; [exact Hexit|]. split; [exact Hacts|].
  destruct (decide (mode = LORA_STANDBY)) as [E|NE].
  - assert (Hmsg : standby_failure_message ∉
                   trace (snd (main (boot d true true)))).
    { intros Hin. rewrite Ht in Hin.
      specialize (Hquiet Hexit). rewrite Forall_forall in Hquiet.
      exact (Hquiet _ Hin eq_refl). }
    assert (Hbus : bus_actions (trace (snd (main (boot d true true)))) <>
                   Exchange <$> standby_entry_frames bootmode).
    { rewrite Hacts. intros Heq.
      rewrite <- (app_nil_r (Exchange <$> standby_entry_frames bootmode))
        in Heq at 2.
      apply app_inv_head in Heq. exact (after_standby_actions_nonempty Heq). }
    rewrite Hexit.
    repeat split; try (intros; contradiction); try discriminate.
    + intros (_ & Hin & _). contradiction.
  - assert (Hmsg : standby_failure_message ∈
                   trace (snd (main (boot d true true)))).
    { apply last_Some_elem_of, Hlast, NE. }
    rewrite app_nil_r in Hacts.
    repeat split; auto.
Qed.

End MainInvariants.

(** ** Failed initialisation and the exit status *)

(** When [bcm2835_init] or [bcm2835_spi_begin] fails, [main] prints the
    message of the call that failed and returns 1 at once:
    [bcm2835_spi_begin] is not attempted after a failed [bcm2835_init], nothing
    is configured, nothing is sent on the bus and the peripheral is left as
    it was. *)
Theorem initialisation_failure {Dev : Type} `{SpiPeripheral Dev}
  (d : Dev) (init spi : bool) :
  init && spi = false ->
  main (boot d init spi) =
  (1, World d init spi
        (if init
         then [EvInit true; EvSpiBegin false;
               EvPrintf "bcm2835_spi_begin failed.  Must run as root.\n" []]
         else [EvInit false;
               EvPrintf "bcm2835_init failed.  Must run as root.\n" []])).
Proof.
  intros Hfail. unfold main, boot.
  destruct init; simpl in Hfail.
  - subst spi.
    do 2 (erewrite bind_run by reflexivity;
          cbn [negb init_ok spi_ok device trace app fst snd]).
    reflexivity.
  - erewrite bind_run by reflexivity.
    cbn [negb init_ok spi_ok device trace app fst snd].
    reflexivity.
Qed.

(** [main] returns 0 exactly when both initialisation calls succeed and the
    read-back of the operating-mode register after the standby write is
    [LORA_STANDBY]; in every other case it returns 1. *)
Theorem exit_status_characterised {Dev : Type} `{SpiPeripheral Dev}
  (d : Dev) (init spi : bool) :
  let r := main (boot d init spi) in
  (fst r = 0 \/ fst r = 1) /\
  (fst r = 0 <->
   init = true /\ spi = true /\
   standby_check_read (trace (snd r)) = Some LORA_STANDBY).
Proof.
  cbv zeta. destruct (init && spi) eqn:Hboth.
  - apply andb_true_iff in Hboth as [-> ->].
    destruct (main_actions d)
      as (bootmode & mode & _ & Hchk & _ & _ & Hexit & _).
    cbv zeta in *. rewrite Hexit, Hchk.
    destruct (decide (mode = LORA_STANDBY)) as [->|NE].
    + split; [left; reflexivity|]. split; auto.
    + split; [right; reflexivity|]. split; [discriminate|].
      intros (_ & _ & [= E]). contradiction.
  - rewrite (initialisation_failure d init spi Hboth). cbn [fst].
    split; [right; reflexivity|]. split; [discriminate|].
    intros (-> & -> & _). discriminate.
Qed.

(** ** The frame encoding *)

Section FrameEncoding.

Context {Dev : Type} `{SpiPeripheral Dev}.

Lemma read_reg_outbound a (w : world Dev) :
  outbound (trace (snd (read_reg a w))) =
  outbound (trace w) ++ [[to_char a; 0x00]].
Proof.
  rewrite read_reg_run. cbv zeta. cbn [snd trace].
  rewrite outbound_bus_actions, bus_actions_app, omap_app.
  rewrite <- outbound_bus_actions. reflexivity.
Qed.

Lemma write_reg_outbound a d (w : world Dev) :
  outbound (trace (snd (write_reg a d w))) =
  outbound (trace w) ++ [[to_char (Z.lor a 0x80); to_char d]].
Proof.
  rewrite write_reg_run. cbv zeta. cbn [snd trace].
  rewrite outbound_bus_actions, bus_actions_app, omap_app.
  rewrite <- outbound_bus_actions. reflexivity.
Qed.

Lemma lor_0x80_inj a b :
  0 <= a <= 0x7F -> 0 <= b <= 0x7F -> Z.lor a 0x80 = Z.lor b 0x80 -> a = b.
Proof.
  intros Ha Hb E.
  rewrite <- (land_lor_low7 a Ha), <- (land_lor_low7 b Hb), E. reflexivity.
Qed.

(** For 7-bit addresses and data bytes the frames identify the access:
    two writes send the same frame only for the same register and the same
    data, two reads only for the same register, and a read never sends the
    frame of a write. *)
Theorem frames_identify_access (a b d e : Z) (w : world Dev) :
  0 <= a <= 0x7F -> 0 <= b <= 0x7F -> is_byte d -> is_byte e ->
  (outbound (trace (snd (write_reg a d w))) =
     outbound (trace (snd (write_reg b e w))) <-> a = b /\ d = e) /\
  (outbound (trace (snd (read_reg a w))) =
     outbound (trace (snd (read_reg b w))) <-> a = b) /\
  outbound (trace (snd (read_reg a w))) <>
    outbound (trace (snd (write_reg b e w))).
Proof.
  intros Ha Hb Hd He.
  rewrite !read_reg_outbound, !write_reg_outbound.
  rewrite (to_char_byte a), (to_char_byte b), (to_char_byte d),
          (to_char_byte e)
    by first [assumption | apply low7_is_byte; assumption].
  rewrite !(to_char_byte (Z.lor _ 0x80))
    by (apply lor_0x80_byte, low7_is_byte; assumption).
  split; [|split].
  - split.
    + intros E. apply app_inv_head in E. injection E as E1 E2.
      split; [apply lor_0x80_inj; assumption | exact E2].
    + intros [-> ->]. reflexivity.
  - split.
    + intros E. apply app_inv_head in E. injection E as E1. exact E1.
    + intros ->. reflexivity.
  - intros E. apply app_inv_head in E. injection E as E1 _.
    pose proof (lor_0x80_testbit b) as Hbit. rewrite <- E1 in Hbit.
    rewrite low7_testbit in Hbit by exact Ha. discriminate.
Qed.

End FrameEncoding.

(** ** Runs on the mock register file *)

Lemma mock_value_insert (r : gmap Z Z) a d i st :
  Mock.reg_value (Mock.Make (<[a := d]> r) i st) a = to_char d.
Proof. unfold Mock.reg_value. simpl. rewrite lookup_insert_eq. reflexivity. Qed.

Lemma mock_value_insert_ne (r : gmap Z Z) a b d i st st' :
  a <> b ->
  Mock.reg_value (Mock.Make (<[a := d]> r) i st) b =
  Mock.reg_value (Mock.Make r i st') b.
Proof.
  intros Hne. unfold Mock.reg_value. simpl.
  rewrite lookup_insert_ne by exact Hne. reflexivity.
Qed.

(** On the mock, a write changes the register it addresses and no other,
    and a read changes no register at all. *)
Theorem mock_access_is_local (m : Mock.t) (a d : Z) (i s : bool)
  (t : list event) :
  0 <= a <= 0x7F ->
  (forall b,
     Mock.reg_value (device (snd (read_reg a (World m i s t)))) b =
     Mock.reg_value m b) /\
  (forall b, b <> a ->
     Mock.reg_value (device (snd (write_reg a d (World m i s t)))) b =
     Mock.reg_value m b).
Proof.
  intros Ha. split.
  - intros b. rewrite mock_read_run by exact Ha. reflexivity.
  - intros b Hb. rewrite mock_write_run by exact Ha. cbn [snd device].
    rewrite (mock_value_insert_ne _ a b _ _ _ (Mock.state m)) by congruence.
    destruct m. reflexivity.
Qed.

(* one register access on the mock *)
Ltac mock_step :=
  erewrite bind_run
    by (first [apply mock_read_run | apply mock_write_run];
        cbv; split; discriminate);
  cbn [Mock.regs Mock.idle Mock.state].

Lemma mock_diagnose_run (m : Mock.t) i s t :
  exists evs,
    diagnose (World m i s t) =
      (tt, World (Mock.Make (Mock.regs m) (Mock.idle m) Mock.Idle) i s
                 (t ++ evs)) /\
    transfers evs =
      (fun a => ([a; 0x00], [to_char (Mock.idle m); Mock.reg_value m a], 2%nat))
        <$> filter (fun a => a <> REG_FIFO) defined_registers.
Proof.
  unfold diagnose.
  do 33 mock_step.
  rewrite <- !app_assoc. eexists. split; [reflexivity|].
  reflexivity.
Qed.

(** On the mock the diagnostic pass changes no register, and the value it
    obtains for each register it reads is the content of that register. *)
Theorem mock_diagnose_is_harmless (m : Mock.t) (i s : bool) (t : list event) :
  let w := snd (diagnose (World m i s t)) in
  (forall b, Mock.reg_value (device w) b = Mock.reg_value m b) /\
  exists evs,
    trace w = t ++ evs /\
    transfers evs =
      (fun a => ([a; 0x00], [to_char (Mock.idle m); Mock.reg_value m a], 2%nat))
        <$> filter (fun a => a <> REG_FIFO) defined_registers.
Proof.
  cbv zeta. destruct (mock_diagnose_run m i s t) as (evs & -> & Ht).
  split; [reflexivity|]. exists evs. auto.
Qed.

Lemma mock_after_standby_run (m : Mock.t) i s t :
  exists evs,
    main_after_standby (World m i s t) =
      (0, World (Mock.Make
                   (<[REG_OP_MODE := LORA_TX]>
                      (<[REG_FIFO := 0xCC]>
                         (<[REG_FIFO_ADDR_PTR := FIFO_TX_BASE_ADDR]>
                            (Mock.regs m))))
                   (Mock.idle m) Mock.Idle)
                i s (t ++ evs)).
Proof.
  unfold main_after_standby.
  destruct (mock_diagnose_run m i s t) as (evs & Hd & _).
  eexists.
  erewrite bind_run by exact Hd. clear Hd.
  do 4 mock_step.
  erewrite bind_run by (unfold busy_wait; rewrite spin_result; reflexivity).
  do 2 mock_step.
  do 2 (erewrite bind_run by reflexivity).
  unfold ret. cbn [device init_ok spi_ok trace].
  rewrite <- !app_assoc. reflexivity.
Qed.

Lemma mock_main_run (m : Mock.t) :
  fst (main (boot m true true)) = 0 /\
  device (snd (main (boot m true true))) =
    Mock.Make
      (<[REG_OP_MODE := LORA_TX]>
         (<[REG_FIFO := 0xCC]>
            (<[REG_FIFO_ADDR_PTR := FIFO_TX_BASE_ADDR]>
               (<[REG_OP_MODE := LORA_STANDBY]>
                  (<[REG_OP_MODE := LORA_SLEEP]>
                     (if Z.testbit (Mock.reg_value m REG_OP_MODE) 7
                      then Mock.regs m
                      else <[REG_OP_MODE := FSK_SLEEP]> (Mock.regs m)))))))
      (Mock.idle m) Mock.Idle.
Proof.
  assert (Htail : forall r t,
    let w := World (Mock.Make (<[REG_OP_MODE := to_char LORA_STANDBY]> r)
                              (Mock.idle m) Mock.Idle) true true t in
    let c := bind (read_reg REG_OP_MODE) (fun mode =>
               if negb (mode =? LORA_STANDBY)
               then bind (printf "There was a problem entering LORA_STANDBY.\n" [])
                         (fun _ => ret 1)
               else bind (printf "Device has entered LORA_STANDBY.\n" [])
                         (fun _ => main_after_standby)) in
    fst (c w) = 0 /\
    device (snd (c w)) =
      Mock.Make
        (<[REG_OP_MODE := LORA_TX]>
           (<[REG_FIFO := 0xCC]>
              (<[REG_FIFO_ADDR_PTR := FIFO_TX_BASE_ADDR]>
                 (<[REG_OP_MODE := to_char LORA_STANDBY]> r))))
        (Mock.idle m) Mock.Idle).
  { intros r t. cbv zeta. mock_step.
    rewrite !mock_value_insert.
    change (to_char (to_char LORA_STANDBY) =? LORA_STANDBY) with true.
    cbn [negb]. erewrite bind_run by reflexivity.
    match goal with
    | |- context [main_after_standby (World ?m' ?i ?s ?t')] =>
        destruct (mock_after_standby_run m' i s t') as (evs & ->)
    end.
    split; reflexivity. }
  cbv zeta in Htail.
  unfold main, boot.
  do 9 (erewrite bind_run by reflexivity;
        cbn [negb init_ok spi_ok device trace app fst snd]).
  mock_step. rewrite land_0x80_testbit.
  destruct (Z.testbit (Mock.reg_value m REG_OP_MODE) 7); cbn [negb].
  - erewrite bind_run by reflexivity.
    do 2 mock_step. apply Htail.
  - erewrite (bind_run (bind (write_reg REG_OP_MODE FSK_SLEEP) _))
      by (erewrite bind_run
            by (apply mock_write_run; cbv; split; discriminate);
          reflexivity).
    cbn [Mock.regs Mock.idle Mock.state].
    do 2 mock_step. apply Htail.
Qed.

(** Whatever its registers hold at boot, a register-file chip is taken to
    LoRa standby: the standby check reads [LORA_STANDBY] and [main] returns
    0. *)
Theorem mock_always_reaches_standby (m : Mock.t) :
  let r := main (boot m true true) in
  fst r = 0 /\ standby_check_read (trace (snd r)) = Some LORA_STANDBY.
Proof.
  cbv zeta. destruct (mock_main_run m) as [Hexit _].
  split; [exact Hexit|].
  pose proof (exit_status_characterised m true true) as [_ Hiff].
  cbv zeta in Hiff. apply Hiff in Hexit. apply Hexit.
Qed.

(** A run of [main] on the register file writes three registers and no
    other: at the end the operating-mode register holds [LORA_TX], the FIFO
    address pointer holds [FIFO_TX_BASE_ADDR], the FIFO register holds the
    payload byte [0xCC], and every other register holds what it held at
    boot. *)
Theorem mock_registers_after_run (m : Mock.t) :
  let chip := device (snd (main (boot m true true))) in
  Mock.reg_value chip REG_OP_MODE = LORA_TX /\
  Mock.reg_value chip REG_FIFO_ADDR_PTR = FIFO_TX_BASE_ADDR /\
  Mock.reg_value chip REG_FIFO = 0xCC /\
  (forall b,
     b <> REG_OP_MODE -> b <> REG_FIFO_ADDR_PTR -> b <> REG_FIFO ->
     Mock.reg_value chip b = Mock.reg_value m b).
Proof.
  cbv zeta. destruct (mock_main_run m) as [_ ->].
  unfold Mock.reg_value. cbn [Mock.regs].
  split; [|split; [|split]].
  - rewrite lookup_insert_eq. reflexivity.
  - rewrite lookup_insert_ne, lookup_insert_ne, lookup_insert_eq by discriminate.
    reflexivity.
  - rewrite lookup_insert_ne, lookup_insert_eq by discriminate. reflexivity.
  - intros b H1 H2 H3.
    rewrite !lookup_insert_ne by congruence.
    destruct (Z.testbit _ 7); [reflexivity|].
    rewrite lookup_insert_ne by congruence. reflexivity.
Qed.

(** ** Concrete instances *)

Lemma initialisation_failure_witness :
  true && false = false /\
  main (boot Mock.power_up true false) =
  (1, World Mock.power_up true false
        [EvInit true; EvSpiBegin false;
         EvPrintf "bcm2835_spi_begin failed.  Must run as root.\n" []]).
Proof.
  split; [reflexivity|].
  exact (initialisation_failure Mock.power_up true false eq_refl).
Defined.

Lemma frames_identify_access_witness :
  (0 <= REG_OP_MODE <= 0x7F) /\ (0 <= REG_FIFO <= 0x7F) /\
  is_byte LORA_TX /\ is_byte 0xCC /\
  outbound (trace (snd (read_reg REG_OP_MODE (boot Mock.power_up true true))))
  <> outbound (trace (snd (write_reg REG_FIFO 0xCC
                                     (boot Mock.power_up true true)))).
Proof.
  assert (Ha : 0 <= REG_OP_MODE <= 0x7F) by (unfold REG_OP_MODE; lia).
  assert (Hb : 0 <= REG_FIFO <= 0x7F) by (unfold REG_FIFO; lia).
  assert (Hd : is_byte LORA_TX) by (unfold is_byte, LORA_TX; lia).
  assert (He : is_byte 0xCC) by (unfold is_byte; lia).
  repeat (split; [assumption|]).
  exact (proj2 (proj2 (frames_identify_access REG_OP_MODE REG_FIFO LORA_TX 0xCC
                         (boot Mock.power_up true true) Ha Hb Hd He))).
Defined.

Lemma mock_access_is_local_witness :
  (0 <= REG_FIFO_ADDR_PTR <= 0x7F) /\
  Mock.reg_value
    (device (snd (write_reg REG_FIFO_ADDR_PTR FIFO_TX_BASE_ADDR
                            (World Mock.power_up true true []))))
    REG_OP_MODE
  = Mock.reg_value Mock.power_up REG_OP_MODE.
Proof.
  assert (Ha : 0 <= REG_FIFO_ADDR_PTR <= 0x7F)
    by (unfold REG_FIFO_ADDR_PTR; lia).
  split; [exact Ha|].
  apply (proj2 (mock_access_is_local Mock.power_up REG_FIFO_ADDR_PTR
                  FIFO_TX_BASE_ADDR true true [] Ha)).
  discriminate.
Defined.
